(** * Subscription controller of the VideoTube backend

    A shallow embedding of [src/controllers/subscription.controller.js]:
    the five request handlers [checkSubscriptionStatus],
    [toggleSubscriptionStatus], [getChannelSubscribersList],
    [getUserSubscribedChannels] and [searchSubscribedChannels].

    A handler is an [async] function: it runs until its next [await], where
    one store operation is performed and where other requests may be served.
    Handlers are therefore written as trees of store operations ([Prog]); an
    interpreter runs a tree against the two collections, sequentially
    ([run]) or interleaved with another request ([run_pair]). *)

From Stdlib Require Import List ZArith String Ascii Bool Lia.
From Stdlib Require Import HexadecimalString HexadecimalN.
From stdpp Require Import gmap strings pretty.
Import ListNotations.
Open Scope string_scope.
Open Scope list_scope.

(** ** Documents *)

(** An ObjectId is a 12-byte value; it is kept as the number it encodes. *)
Definition ObjectId := N.

Module User.
(** Modelled from the spec: the schema [models/user.model.js] is not part
    of the sources; the controller reads [_id], [username], [fullName] and
    [avatar] of a user document. *)
Record t := mk {
  _id : ObjectId;
  username : string;
  fullName : string;
  avatar : string
}.
End User.

Module Subscription.
(** Modelled from the spec: the schema [models/subscription.model.js] is
    not part of the sources; an edge document has a [subscriber], a
    [channel] and a creation timestamp, next to the [_id] every document
    has. *)
Record t := mk {
  _id : ObjectId;
  subscriber : ObjectId;
  channel : ObjectId;
  createdAt : N
}.
End Subscription.

(** What [Subscription.deleteOne] resolves to. *)
Record DeleteResult := {
  acknowledged : bool;
  deletedCount : nat
}.

(** A document of [find(...).select("channel")]: only [_id] and [channel]. *)
Module ChannelRef.
Record t := mk {
  _id : ObjectId;
  channel : ObjectId
}.
End ChannelRef.

(** The [$project] of [getChannelSubscribersList]. *)
Module SubscriberSummary.
Record t := mk {
  subscriber : ObjectId;
  username : string;
  fullName : string;
  avatar : string
}.
End SubscriberSummary.

(** The [$project] of the two channel listings. *)
Module ChannelSummary.
Record t := mk {
  _id : ObjectId;
  username : string;
  fullName : string;
  avatar : string;
  totalSubscribers : nat
}.
End ChannelSummary.

(** The document of a [$count: "count"] stage. *)
Record CountDoc := { count : nat }.

(** ** The library the controller calls

    [mongoose] is not part of the repository. What the controller needs of
    it is kept as an interface: the cast of a request string to an ObjectId
    ([isValidObjectId] is true exactly when that cast succeeds), the
    rendering of an ObjectId as a string, which is one-to-one, and the
    case-insensitive regular expressions of [$regex] with [$options: "i"]:
    whether the store accepts a pattern ([regex_valid]; an ill-formed one
    fails the aggregation) and what an accepted pattern matches
    ([regex_i]). Only the empty pattern is fixed: it is accepted and
    matches every string. *)
Class Mongoose := {
  parseObjectId : string -> option ObjectId;
  toString : ObjectId -> string;
  toString_inj : forall a b : ObjectId, toString a = toString b -> a = b;
  regex_valid : string -> bool;
  regex_i : string -> string -> bool;
  regex_valid_empty : regex_valid "" = true;
  regex_i_empty : forall subject : string, regex_i "" subject = true
}.

(** ** Exceptions and settled promises *)

(** Modelled from the spec: [utils/ApiError.js] is not part of the sources;
    an [ApiError] carries the HTTP status code and a message. The other
    constructors are the errors the library raises. *)
Inductive Exn :=
| ApiError (statusCode : Z) (message : string)
| CastError (message : string)
| BSONError (message : string)
| MongoServerError (message : string).

Definition error_message (e : Exn) : string :=
  match e with
  | ApiError _ m | CastError m | BSONError m | MongoServerError m => m
  end.

Inductive Settled (A : Type) : Type :=
| Fulfilled (a : A)
| Rejected (e : Exn).
Arguments Fulfilled {A} a.
Arguments Rejected {A} e.

Definition settled_bind {A B} (x : Settled A) (f : A -> Settled B) : Settled B :=
  match x with
  | Fulfilled a => f a
  | Rejected e => Rejected e
  end.

(** ** The two collections *)

Record World := {
  users : list User.t;
  subscriptions : list Subscription.t;
  (** the ObjectIds the process generates, in order, and how many were taken *)
  oid_gen : nat -> ObjectId;
  oid_taken : nat;
  (** the clock that stamps [createdAt] *)
  now : N
}.

Definition next_oid (w : World) : ObjectId := oid_gen w (oid_taken w).

Definition take_oid (w : World) : World :=
  {| users := users w; subscriptions := subscriptions w;
     oid_gen := oid_gen w; oid_taken := S (oid_taken w); now := now w |}.

Definition set_subscriptions (l : list Subscription.t) (w : World) : World :=
  {| users := users w; subscriptions := l;
     oid_gen := oid_gen w; oid_taken := oid_taken w; now := now w |}.

(** ** Aggregation stages

    A pipeline is a composition of stages over lists of documents, in the
    collection's natural order. *)

Definition agg_match {D} (p : D -> bool) (docs : list D) : list D :=
  List.filter p docs.

(** [$lookup]: each document gets the array of the foreign documents that
    join with it. *)
Definition agg_lookup {D F} (from : list F) (on : D -> F -> bool)
    (docs : list D) : list (D * list F) :=
  map (fun d => (d, List.filter (on d) from)) docs.

(** [$unwind]: one output document per element of the array; a document
    with an empty array yields none. *)
Definition agg_unwind {D F} (docs : list (D * list F)) : list (D * F) :=
  flat_map (fun df => map (pair (fst df)) (snd df)) docs.

Definition agg_project {D E} (f : D -> E) (docs : list D) : list E :=
  map f docs.

(** [$skip] refuses a negative argument, [$limit] one that is not positive. *)
Definition agg_skip {D} (n : Z) (docs : list D) : Settled (list D) :=
  if (n <? 0)%Z then Rejected (MongoServerError "Argument to $skip cannot be negative")
  else Fulfilled (skipn (Z.to_nat n) docs).

Definition agg_limit {D} (n : Z) (docs : list D) : Settled (list D) :=
  if (n <=? 0)%Z then Rejected (MongoServerError "the limit must be positive")
  else Fulfilled (firstn (Z.to_nat n) docs).

(** [$count]: no document at all when the input is empty. *)
Definition agg_count {D} (docs : list D) : list CountDoc :=
  match docs with
  | [] => []
  | _ => [ {| count := length docs |} ]
  end.

Definition Pipeline (D R : Type) : Type := World -> list D -> Settled (list R).

(** ** Store operations *)

Inductive Op : Type -> Type :=
| Subscription_findOne (channel subscriber : ObjectId) : Op (option Subscription.t)
| Subscription_deleteOne (id : ObjectId) : Op DeleteResult
| Subscription_create (channel subscriber : ObjectId) : Op Subscription.t
| Subscription_countDocuments (subscriber : ObjectId) : Op nat
| Subscription_find_select_channel (subscriber : ObjectId) (channel_in : list ObjectId)
    : Op (list ChannelRef.t)
| User_aggregate {R : Type} (pipeline : Pipeline User.t R) : Op (list R)
| Subscription_aggregate {R : Type} (pipeline : Pipeline Subscription.t R) : Op (list R)
| ObjectId_generate : Op ObjectId.

Definition edge_of (channel subscriber : ObjectId) (s : Subscription.t) : bool :=
  (Subscription.channel s =? channel)%N && (Subscription.subscriber s =? subscriber)%N.

Definition has_id (id : ObjectId) (s : Subscription.t) : bool :=
  (Subscription._id s =? id)%N.

(** Removes the first document that satisfies [p], and tells whether there
    was one. *)
Fixpoint delete_first {D} (p : D -> bool) (docs : list D) : list D * nat :=
  match docs with
  | [] => ([], 0)
  | d :: rest =>
      if p d then (rest, 1)
      else let '(rest', n) := delete_first p rest in (d :: rest', n)
  end.

Definition mem_oid (x : ObjectId) (l : list ObjectId) : bool :=
  existsb (N.eqb x) l.

(** [countDocuments({subscriber})] *)
Definition count_where_subscriber (s : ObjectId) (docs : list Subscription.t) : nat :=
  length (List.filter (fun d => (Subscription.subscriber d =? s)%N) docs).

(** [find({subscriber, channel: {$in: ids}}).select("channel")] *)
Definition select_channel_where (s : ObjectId) (ids : list ObjectId)
    (docs : list Subscription.t) : list ChannelRef.t :=
  map (fun d => ChannelRef.mk (Subscription._id d) (Subscription.channel d))
    (List.filter
       (fun d => (Subscription.subscriber d =? s)%N
                 && mem_oid (Subscription.channel d) ids)
       docs).

Definition exec {R} (op : Op R) (w : World) : Settled R * World :=
  match op in Op R return Settled R * World with
  | Subscription_findOne c s =>
      (Fulfilled (List.find (edge_of c s) (subscriptions w)), w)
  | Subscription_deleteOne id =>
      let '(rest, n) := delete_first (has_id id) (subscriptions w) in
      (Fulfilled {| acknowledged := true; deletedCount := n |},
       set_subscriptions rest w)
  | Subscription_create c s =>
      let id := next_oid w in
      let w1 := take_oid w in
      if mem_oid id (map Subscription._id (subscriptions w)) then
        (Rejected (MongoServerError "E11000 duplicate key error"), w1)
      else
        let doc := Subscription.mk id s c (now w) in
        (Fulfilled doc, set_subscriptions (subscriptions w ++ [doc]) w1)
  | Subscription_countDocuments s =>
      (Fulfilled (count_where_subscriber s (subscriptions w)), w)
  | Subscription_find_select_channel s ids =>
      (Fulfilled (select_channel_where s ids (subscriptions w)), w)
  | User_aggregate pipeline => (pipeline w (users w), w)
  | Subscription_aggregate pipeline => (pipeline w (subscriptions w), w)
  | ObjectId_generate => (Fulfilled (next_oid w), take_oid w)
  end.

(** ** Handlers as trees of store operations *)

Inductive Prog (A : Type) : Type :=
| Return (a : A)
| Throw (e : Exn)
| Await {R : Type} (op : Op R) (k : Settled R -> Prog A).
Arguments Return {A} a.
Arguments Throw {A} e.
Arguments Await {A R} op k.

(** [await op]: the value of a fulfilled promise, the exception of a
    rejected one. *)
Definition await {R} (op : Op R) : Prog R :=
  Await op (fun r => match r with
                     | Fulfilled v => Return v
                     | Rejected e => Throw e
                     end).

Fixpoint bind {A B} (p : Prog A) (f : A -> Prog B) : Prog B :=
  match p with
  | Return a => f a
  | Throw e => Throw e
  | Await op k => Await op (fun r => bind (k r) f)
  end.

(** [try { p } catch (error) { h error }] *)
Fixpoint try_catch {A} (p : Prog A) (h : Exn -> Prog A) : Prog A :=
  match p with
  | Return a => Return a
  | Throw e => h e
  | Await op k => Await op (fun r => try_catch (k r) h)
  end.

Notation "'let*' x ':=' p 'in' q" := (bind p (fun x => q))
  (at level 10, x name, p at level 100, q at level 200).

(** One store access of a run: the operation and what it settled to. *)
Definition Access : Type := { R : Type & (Op R * Settled R)%type }.
Definition access {R} (op : Op R) (r : Settled R) : Access := existT R (op, r).

Record Run (A : Type) := {
  outcome : Settled A;
  final : World;
  trace : list Access
}.
Arguments outcome {A} r.
Arguments final {A} r.
Arguments trace {A} r.

(** A request served alone: every operation sees the store the previous
    one left. *)
Fixpoint run_from {A} (p : Prog A) (w : World) (seen : list Access) : Run A :=
  match p with
  | Return a => {| outcome := Fulfilled a; final := w; trace := seen |}
  | Throw e => {| outcome := Rejected e; final := w; trace := seen |}
  | Await op k =>
      let '(r, w') := exec op w in
      run_from (k r) w' (seen ++ [access op r])
  end.

Definition run {A} (p : Prog A) (w : World) : Run A := run_from p w [].

(** ** JavaScript values of the controller *)

(** [ToBoolean]: what [!x], [x || y] and [if (x)] test. *)
Class ToBoolean (A : Type) := truthy : A -> bool.

(** [undefined] and the empty string are falsy, every other string truthy. *)
#[export] Instance truthy_param : ToBoolean (option string) :=
  fun v => match v with
           | Some s => negb (s =? "")
           | None => false
           end.
#[export] Instance truthy_string : ToBoolean string :=
  fun s => negb (s =? "").
(** [null] is falsy, a document truthy. *)
#[export] Instance truthy_found : ToBoolean (option Subscription.t) :=
  fun v => match v with Some _ => true | None => false end.
(** Every object is truthy, whatever its fields hold. *)
#[export] Instance truthy_document : ToBoolean Subscription.t := fun _ => true.
#[export] Instance truthy_DeleteResult : ToBoolean DeleteResult := fun _ => true.
(** A number is falsy when it is zero. *)
#[export] Instance truthy_nat : ToBoolean nat :=
  fun n => match n with O => false | S _ => true end.

(** An id as the controller holds it: a string of the request, or the
    ObjectId of [req.user]. *)
Inductive IdArg :=
| IdString (s : string)
| IdObject (o : ObjectId).

(** [userId || requestingUserId] *)
Definition or_requester (userId : option string) (requestingUserId : ObjectId) : IdArg :=
  match userId with
  | Some s => if truthy userId then IdString s else IdObject requestingUserId
  | None => IdObject requestingUserId
  end.

(** [Math.ceil(a / b)]; [b] is never zero where the controller gets here. *)
Definition Math_ceil_div (a b : Z) : Z := (- ((- a) / b))%Z.

(** [parseInt] of a parameter that holds an integer. *)
Definition parseInt (z : Z) : Z := z.

(** The request, as the handlers read it. [req.user] is set by the
    authentication middleware; the numeric query parameters hold integers. *)
Record Request := {
  params_channelId : option string;
  user__id : ObjectId;
  query_userId : option string;
  query_search : option string;
  query_page : option Z;
  query_limit : option Z
}.

(** Modelled from the spec: [utils/ApiResponse.js] is not part of the
    sources; the success envelope is [{statusCode, data, message,
    success: true}]. *)
Record ApiResponse (D : Type) := {
  statusCode : Z;
  data : D;
  message : string;
  success : bool
}.
Arguments statusCode {D} a.
Arguments data {D} a.
Arguments message {D} a.
Arguments success {D} a.

Definition new_ApiResponse {D} (code : Z) (d : D) (msg : string) : ApiResponse D :=
  {| statusCode := code; data := d; message := msg; success := true |}.

(** [res.status(status).json(body)] *)
Record HttpResponse (D : Type) := {
  status : Z;
  json : ApiResponse D
}.
Arguments status {D} h.
Arguments json {D} h.

Definition res_status_json {D} (code : Z) (body : ApiResponse D) : HttpResponse D :=
  {| status := code; json := body |}.

(** The internal state a mongoose document keeps under [$__]; nothing of
    it is read here. *)
Inductive InternalCache := internal_cache.

(** What a spread copies of a mongoose document: its own enumerable
    properties. These are [$__], [_doc] and [$isNew]; the fields of the
    document sit under [_doc] (the document answers [doc.channel] through
    getters of its prototype, which a spread does not copy). *)
Record DocumentProperties := {
  dollar__ : InternalCache;
  _doc : Subscription.t;
  dollar_isNew : bool
}.

(** The own properties of a document that [create] has saved. *)
Definition own_properties (d : Subscription.t) : DocumentProperties :=
  {| dollar__ := internal_cache; _doc := d; dollar_isNew := false |}.

(** [{isSubscribed}], after the spread of the created document when there
    is one. *)
Record SubscribedData := {
  spread : option DocumentProperties;
  isSubscribed : bool
}.

(** The keys of the object, in the order they were set. *)
Definition object_keys (d : SubscribedData) : list string :=
  match spread d with
  | Some _ => ["$__"; "_doc"; "$isNew"; "isSubscribed"]
  | None => ["isSubscribed"]
  end.

(** [{...channel, isSubscribedByMe}] *)
Record ChannelItem := {
  channel_fields : ChannelSummary.t;
  isSubscribedByMe : bool
}.

Record ListingData := {
  subscribedChannels : list ChannelItem;
  currentPage : Z;
  totalPages : Z;
  totalSubscribedChannels : nat
}.

Section Controller.
Context `{lib : Mongoose}.

Definition isValidObjectId (v : option string) : bool :=
  match v with
  | Some s => match parseObjectId s with Some _ => true | None => false end
  | None => false
  end.

(** The cast of a filter value to the ObjectId the schema asks for. *)
Definition cast_ObjectId (v : IdArg) : Prog ObjectId :=
  match v with
  | IdObject o => Return o
  | IdString s =>
      match parseObjectId s with
      | Some o => Return o
      | None => Throw (CastError "Cast to ObjectId failed")
      end
  end.

(** [new mongoose.Types.ObjectId(v)]: with [undefined] a new id is
    generated. *)
Definition new_ObjectId (v : option IdArg) : Prog ObjectId :=
  match v with
  | None => await ObjectId_generate
  | Some (IdObject o) => Return o
  | Some (IdString s) =>
      match parseObjectId s with
      | Some o => Return o
      | None => Throw (BSONError "input must be a 24 character hex string, 12 byte Uint8Array, or an integer")
      end
  end.

(** [Subscription.findOne({channel, subscriber})] *)
Definition findOne (channel : IdArg) (subscriber : ObjectId)
    : Prog (option Subscription.t) :=
  let* c := cast_ObjectId channel in
  await (Subscription_findOne c subscriber).

(** [Subscription.create({channel, subscriber})] *)
Definition create (channel : IdArg) (subscriber : ObjectId) : Prog Subscription.t :=
  let* c := cast_ObjectId channel in
  await (Subscription_create c subscriber).

(** [Subscription.countDocuments({subscriber})] *)
Definition countDocuments (subscriber : IdArg) : Prog nat :=
  let* s := cast_ObjectId subscriber in
  await (Subscription_countDocuments s).

(** *** checkSubscriptionStatus *)

Definition checkSubscriptionStatus (req : Request) : Prog (HttpResponse SubscribedData) :=
  let channelId := params_channelId req in
  if negb (truthy channelId) then
    Throw (ApiError 400 "Channel id is required.")
  else if negb (isValidObjectId channelId) then
    Throw (ApiError 400 "Invalid channel id.")
  else
    let* subscription := findOne (IdString (default "" channelId)) (user__id req) in
    Return (res_status_json 200
              (new_ApiResponse 200
                 {| spread := None; isSubscribed := truthy subscription |}
                 "Subscription status retrieved successfully.")).

(** *** toggleSubscriptionStatus *)

Definition toggleSubscriptionStatus (req : Request) : Prog (HttpResponse SubscribedData) :=
  let channelId := params_channelId req in
  if negb (truthy channelId) then
    Throw (ApiError 400 "Channel id is required.")
  else if negb (isValidObjectId channelId) then
    Throw (ApiError 400 "Invalid channel id.")
  else
    let* existingSubscription := findOne (IdString (default "" channelId)) (user__id req) in
    match existingSubscription with
    | Some existing =>
        let* deleteSubscription :=
          await (Subscription_deleteOne (Subscription._id existing)) in
        if negb (truthy deleteSubscription) then
          Throw (ApiError 500 "Subscription not found or already unsubscribed.")
        else
          Return (res_status_json 200
                    (new_ApiResponse 200
                       {| spread := None; isSubscribed := false |}
                       "Unsubscribed successfully."))
    | None =>
        let* subscription := create (IdString (default "" channelId)) (user__id req) in
        if negb (truthy subscription) then
          Throw (ApiError 500 "Internal Server Error: Subscription could not be created.")
        else
          Return (res_status_json 201
                    (new_ApiResponse 201
                       {| spread := Some (own_properties subscription);
                          isSubscribed := true |}
                       "Subscribed successfully."))
    end.

(** *** getChannelSubscribersList *)

(** The stages of the pipeline, [$match] to [$project]. *)
Definition channelSubscribers_docs (matchId : ObjectId) (db : World)
    (docs : list User.t) : list SubscriberSummary.t :=
  let matched := agg_match (fun u => (User._id u =? matchId)%N) docs in
  let subscribers :=
    agg_unwind
      (agg_lookup (subscriptions db)
         (fun u s => (Subscription.channel s =? User._id u)%N) matched) in
  let subscriber_details :=
    agg_unwind
      (agg_lookup (users db)
         (fun us d => (User._id d =? Subscription.subscriber (snd us))%N)
         subscribers) in
  agg_project
    (fun usd =>
       let d := snd usd in
       SubscriberSummary.mk (User._id d) (User.username d)
         (User.fullName d) (User.avatar d))
    subscriber_details.

Definition channelSubscribers_pipeline (matchId : ObjectId)
    : Pipeline User.t SubscriberSummary.t :=
  fun db docs => Fulfilled (channelSubscribers_docs matchId db docs).

Definition getChannelSubscribersList (req : Request)
    : Prog (HttpResponse (list SubscriberSummary.t)) :=
  let requestingUserId := user__id req in
  let userId := query_userId req in
  let page := default 1%Z (query_page req) in
  let limit := default 10%Z (query_limit req) in
  let targetUserId := or_requester userId requestingUserId in
  let skip := ((page - 1) * limit)%Z in
  let* matchId := new_ObjectId (option_map IdString userId) in
  let* getChannelSubscribers :=
    await (User_aggregate (channelSubscribers_pipeline matchId)) in
  if negb (truthy (length getChannelSubscribers)) then
    Throw (ApiError 404 "No subscribers found for this channel.")
  else
    Return (res_status_json 200
              (new_ApiResponse 200 getChannelSubscribers
                 "Subscribers fetched successfully.")).

(** *** getUserSubscribedChannels *)

Definition channelSummary_of (d : Subscription.t * User.t * list Subscription.t)
    : ChannelSummary.t :=
  let channelDetails := snd (fst d) in
  ChannelSummary.mk (User._id channelDetails) (User.username channelDetails)
    (User.fullName channelDetails) (User.avatar channelDetails)
    (length (snd d)).

(** The stages of the pipeline before [$skip] and [$limit]. *)
Definition subscribedChannels_docs (target : ObjectId) (db : World)
    (docs : list Subscription.t) : list ChannelSummary.t :=
  let matched :=
    agg_match (fun e => (Subscription.subscriber e =? target)%N) docs in
  let channelDetails :=
    agg_unwind
      (agg_lookup (users db)
         (fun e u => (User._id u =? Subscription.channel e)%N) matched) in
  let subscribers :=
    agg_lookup (subscriptions db)
      (fun eu s => (Subscription.channel s =? Subscription.channel (fst eu))%N)
      channelDetails in
  agg_project channelSummary_of subscribers.

Definition subscribedChannels_pipeline (target : ObjectId) (skip limit : Z)
    : Pipeline Subscription.t ChannelSummary.t :=
  fun db docs =>
    settled_bind (agg_skip skip (subscribedChannels_docs target db docs))
      (agg_limit (parseInt limit)).

(** [new Set(subscriptionsByMe.map(sub => sub.channel.toString()))] *)
Definition subscribedByMeSet (subscriptionsByMe : list ChannelRef.t) : gset string :=
  list_to_set (map (fun sub => toString (ChannelRef.channel sub)) subscriptionsByMe).

Definition Set_has (x : string) (s : gset string) : bool := bool_decide (x ∈ s).

(** The part the two listings share: the batched lookup of the requester's
    own edges and the flag of every channel of the page. *)
Definition mark_subscribedByMe (requestingUserId : ObjectId)
    (subscribedChannels : list ChannelSummary.t) : Prog (list ChannelItem) :=
  let channelIds := map ChannelSummary._id subscribedChannels in
  let* subscriptionsByMe :=
    await (Subscription_find_select_channel requestingUserId channelIds) in
  let byMe := subscribedByMeSet subscriptionsByMe in
  Return
    (map (fun channel =>
            {| channel_fields := channel;
               isSubscribedByMe := Set_has (toString (ChannelSummary._id channel)) byMe |})
       subscribedChannels).

Definition getUserSubscribedChannels (req : Request) : Prog (HttpResponse ListingData) :=
  let requestingUserId := user__id req in
  let userId := query_userId req in
  let page := default 1%Z (query_page req) in
  let limit := default 10%Z (query_limit req) in
  let targetUserId := or_requester userId requestingUserId in
  let skip := ((page - 1) * limit)%Z in
  let* totalSubscribedChannels := countDocuments targetUserId in
  let* target := new_ObjectId (Some targetUserId) in
  let* subscribedChannels :=
    await (Subscription_aggregate (subscribedChannels_pipeline target skip limit)) in
  let* result := mark_subscribedByMe requestingUserId subscribedChannels in
  let totalPages := Math_ceil_div (Z.of_nat totalSubscribedChannels) limit in
  Return (res_status_json 200
            (new_ApiResponse 200
               {| subscribedChannels := result;
                  currentPage := parseInt page;
                  totalPages := totalPages;
                  totalSubscribedChannels := totalSubscribedChannels |}
               "Fetched subscribed channels successfully")).

(** *** searchSubscribedChannels *)

Definition search_matches (search : string) (eu : Subscription.t * User.t) : bool :=
  regex_i search (User.fullName (snd eu)) || regex_i search (User.username (snd eu)).

(** The stages the two pipelines of the search share: the target's edges
    joined to their channels, filtered by the pattern. *)
Definition searchFound_docs (target : ObjectId) (search : string) (db : World)
    (docs : list Subscription.t) : list (Subscription.t * User.t) :=
  let matched :=
    agg_match (fun e => (Subscription.subscriber e =? target)%N) docs in
  let channelDetails :=
    agg_unwind
      (agg_lookup (users db)
         (fun e u => (User._id u =? Subscription.channel e)%N) matched) in
  agg_match (search_matches search) channelDetails.

(** The store compiles the pattern of a [$regex] when it reads the
    pipeline: an ill-formed pattern fails the aggregation, whatever the
    documents. *)
Definition agg_regex (search : string) : Settled unit :=
  if regex_valid search then Fulfilled tt
  else Rejected (MongoServerError "Regular expression is invalid").

Definition searchCount_pipeline (target : ObjectId) (search : string)
    : Pipeline Subscription.t CountDoc :=
  fun db docs =>
    settled_bind (agg_regex search)
      (fun _ => Fulfilled (agg_count (searchFound_docs target search db docs))).

(** The stages of the second pipeline before [$skip] and [$limit]. *)
Definition searchChannels_docs (target : ObjectId) (search : string) (db : World)
    (docs : list Subscription.t) : list ChannelSummary.t :=
  let subscribers :=
    agg_lookup (subscriptions db)
      (fun eu s => (Subscription.channel s =? Subscription.channel (fst eu))%N)
      (searchFound_docs target search db docs) in
  agg_project channelSummary_of subscribers.

Definition searchChannels_pipeline (target : ObjectId) (search : string) (skip limit : Z)
    : Pipeline Subscription.t ChannelSummary.t :=
  fun db docs =>
    settled_bind (agg_regex search)
      (fun _ =>
         settled_bind (agg_skip skip (searchChannels_docs target search db docs))
           (agg_limit (parseInt limit))).

(** [totalSubscribedChannels[0]?.count || 0] *)
Definition first_count_or_0 (docs : list CountDoc) : nat :=
  match docs with
  | d :: _ => if truthy (count d) then count d else 0
  | [] => 0
  end.

Definition searchSubscribedChannels (req : Request) : Prog (HttpResponse ListingData) :=
  try_catch
    (let requestingUserId := user__id req in
     let userId := query_userId req in
     let search := default "" (query_search req) in
     let page := default 1%Z (query_page req) in
     let limit := default 10%Z (query_limit req) in
     let targetUserId := or_requester userId requestingUserId in
     let skip := ((page - 1) * limit)%Z in
     let* target := new_ObjectId (Some targetUserId) in
     let* totalSubscribedChannels :=
       await (Subscription_aggregate (searchCount_pipeline target search)) in
     let totalCount := first_count_or_0 totalSubscribedChannels in
     let* target' := new_ObjectId (Some targetUserId) in
     let* subscribedChannels :=
       await (Subscription_aggregate
                (searchChannels_pipeline target' search skip limit)) in
     let* result := mark_subscribedByMe requestingUserId subscribedChannels in
     let totalPages := Math_ceil_div (Z.of_nat totalCount) limit in
     Return (res_status_json 200
               (new_ApiResponse 200
                  {| subscribedChannels := result;
                     currentPage := parseInt page;
                     totalPages := totalPages;
                     totalSubscribedChannels := totalCount |}
                  "Searched subscribed channels successfully")))
    (fun error =>
       Throw (ApiError 500
                (if truthy (error_message error) then error_message error
                 else "Something went wrong while searching for subscribed channels"))).

End Controller.

Arguments count_where_subscriber : simpl never.
Arguments select_channel_where : simpl never.
Arguments channelSubscribers_docs : simpl never.
Arguments channelSubscribers_pipeline : simpl never.
Arguments subscribedChannels_docs : simpl never.
Arguments subscribedChannels_pipeline : simpl never.
Arguments searchFound_docs : simpl never.
Arguments searchCount_pipeline : simpl never.
Arguments searchChannels_docs : simpl never.
Arguments searchChannels_pipeline : simpl never.
Arguments subscribedByMeSet : simpl never.
Arguments Set_has : simpl never.

(** ** Two requests in flight

    [run_pair schedule p q w] serves two requests at once: each entry of
    the schedule lets one of them perform its next store operation ([true]
    for [p], [false] for [q]); when the schedule is used up, or the chosen
    request has finished, what remains is run to the end, [p] first when
    both remain. Each request gets its own outcome and trace; [final] is
    the store after both. *)
Definition finish_pair {A B} (p : Prog A) (q : Prog B) (w : World)
    (seen_p seen_q : list Access) : Run A * Run B :=
  let rp := run_from p w seen_p in
  let rq := run_from q (final rp) seen_q in
  ({| outcome := outcome rp; final := final rq; trace := trace rp |}, rq).

Fixpoint run_pair_from {A B} (schedule : list bool) (p : Prog A) (q : Prog B)
    (w : World) (seen_p seen_q : list Access) : Run A * Run B :=
  match schedule with
  | [] => finish_pair p q w seen_p seen_q
  | true :: rest =>
      match p with
      | Await op k =>
          let '(r, w') := exec op w in
          run_pair_from rest (k r) q w' (seen_p ++ [access op r]) seen_q
      | _ => finish_pair p q w seen_p seen_q
      end
  | false :: rest =>
      match q with
      | Await op k =>
          let '(r, w') := exec op w in
          run_pair_from rest p (k r) w' seen_p (seen_q ++ [access op r])
      | _ => finish_pair p q w seen_p seen_q
      end
  end.

Definition run_pair {A B} (schedule : list bool) (p : Prog A) (q : Prog B) (w : World)
    : Run A * Run B :=
  run_pair_from schedule p q w [] [].

(** ** An instance of the library interface

    Used to evaluate the handlers on concrete requests: ids are read and
    written in hexadecimal, a request string is an id when it has 24
    hexadecimal digits, a pattern is accepted when it is made of letters,
    digits and spaces, and it matches when it occurs in the subject, letter
    case aside. *)
Module Sample.

Definition parse (s : string) : option ObjectId :=
  if (String.length s =? 24)%nat then
    option_map N.of_hex_uint (HexadecimalString.NilEmpty.uint_of_string s)
  else None.

Definition render (o : ObjectId) : string :=
  HexadecimalString.NilEmpty.string_of_uint (N.to_hex_uint o).

Definition lower (c : ascii) : ascii :=
  let n := nat_of_ascii c in
  if ((65 <=? n) && (n <=? 90))%nat then ascii_of_nat (n + 32) else c.

Fixpoint lowercase (s : string) : string :=
  match s with
  | EmptyString => EmptyString
  | String c rest => String (lower c) (lowercase rest)
  end.

Fixpoint occurs (pattern subject : string) : bool :=
  String.prefix pattern subject ||
  match subject with
  | EmptyString => false
  | String _ rest => occurs pattern rest
  end.

Definition matches (pattern subject : string) : bool :=
  occurs (lowercase pattern) (lowercase subject).

(** Letters, digits and the space stand for themselves in a pattern. *)
Definition plain (c : ascii) : bool :=
  let n := nat_of_ascii c in
  ((48 <=? n) && (n <=? 57) || (65 <=? n) && (n <=? 90)
   || (97 <=? n) && (n <=? 122) || (n =? 32))%nat.

Fixpoint accepted (pattern : string) : bool :=
  match pattern with
  | EmptyString => true
  | String c rest => plain c && accepted rest
  end.

End Sample.

#[export] Instance sample_lib : Mongoose.
Proof.
  refine {| parseObjectId := Sample.parse;
            toString := Sample.render;
            regex_valid := Sample.accepted;
            regex_i := Sample.matches |}.
  - intros a b E. unfold Sample.render in E.
    apply (f_equal HexadecimalString.NilEmpty.uint_of_string) in E.
    rewrite !HexadecimalString.NilEmpty.usu in E.
    injection E as E.
    apply (f_equal N.of_hex_uint) in E.
    now rewrite !HexadecimalN.Unsigned.of_to in E.
  - reflexivity.
  - intros subject. unfold Sample.matches. simpl.
    now destruct (Sample.lowercase subject).
Defined.

(** ** Notions the properties are stated with *)

(** There is an edge [subscriber -> channel] in the Subscription store. *)
Definition has_edge (subscriber channel : ObjectId) (w : World) : Prop :=
  exists e, In e (subscriptions w)
            /\ Subscription.subscriber e = subscriber
            /\ Subscription.channel e = channel.

(** Each document of the Subscription store has an [_id] of its own, and the
    id the process generates next is not one of them. *)
Definition store_ok (w : World) : Prop :=
  List.NoDup (map Subscription._id (subscriptions w))
  /\ ~ In (next_oid w) (map Subscription._id (subscriptions w)).

(** The data of the response a run ended with. *)
Definition sent {D} (code : Z) (d : D) (msg : string) : Settled (HttpResponse D) :=
  Fulfilled (res_status_json code (new_ApiResponse code d msg)).

(** The same request with other paging parameters. *)
Definition with_paging (page limit : option Z) (req : Request) : Request :=
  {| params_channelId := params_channelId req; user__id := user__id req;
     query_userId := query_userId req; query_search := query_search req;
     query_page := page; query_limit := limit |}.

(** The id whose subscribed channels a listing shows: [userId], or the
    requester when [userId] is absent or empty; none when [userId] cannot be
    cast to an id. *)
Definition target_of `{Mongoose} (req : Request) : option ObjectId :=
  match or_requester (query_userId req) (user__id req) with
  | IdObject o => Some o
  | IdString s => parseObjectId s
  end.

(** The number of edges whose channel is [c]. *)
Definition subscriber_count (c : ObjectId) (w : World) : nat :=
  length (List.filter (fun s => (Subscription.channel s =? c)%N) (subscriptions w)).

(** The spec's words for the subscriber listing: the edges whose channel is
    the target, joined to the user documents of their subscribers. *)
Definition subscriber_summaries (target : ObjectId) (w : World)
    : list SubscriberSummary.t :=
  flat_map
    (fun e =>
       map (fun u => SubscriberSummary.mk (User._id u) (User.username u)
                       (User.fullName u) (User.avatar u))
         (List.filter (fun u => (User._id u =? Subscription.subscriber e)%N) (users w)))
    (List.filter (fun e => (Subscription.channel e =? target)%N) (subscriptions w)).

(** The spec's words for the channel listing: the edges whose subscriber is
    the target, joined to the user documents of their channels, each with
    the number of edges to that channel. *)
Definition subscribed_summaries (target : ObjectId) (w : World)
    : list ChannelSummary.t :=
  flat_map
    (fun e =>
       map (fun u => ChannelSummary.mk (User._id u) (User.username u)
                       (User.fullName u) (User.avatar u)
                       (subscriber_count (Subscription.channel e) w))
         (List.filter (fun u => (User._id u =? Subscription.channel e)%N) (users w)))
    (List.filter (fun e => (Subscription.subscriber e =? target)%N) (subscriptions w)).

(** The page of a listing with the flags the handler adds: what
    [mark_subscribedByMe] returns on the store [w]. *)
Definition marked `{Mongoose} (requester : ObjectId) (w : World)
    (page : list ChannelSummary.t) : list ChannelItem :=
  let byMe :=
    subscribedByMeSet
      (select_channel_where requester (map ChannelSummary._id page) (subscriptions w)) in
  map (fun channel =>
         {| channel_fields := channel;
            isSubscribedByMe := Set_has (toString (ChannelSummary._id channel)) byMe |})
    page.

(** The same request with another [search]. *)
Definition with_search (search : option string) (req : Request) : Request :=
  {| params_channelId := params_channelId req; user__id := user__id req;
     query_userId := query_userId req; query_search := search;
     query_page := query_page req; query_limit := query_limit req |}.

(** [$skip] then [$limit]: the error, if one of the arguments is refused. *)
Definition paging_error (skip limit : Z) : option Exn :=
  if (skip <? 0)%Z then Some (MongoServerError "Argument to $skip cannot be negative")
  else if (limit <=? 0)%Z then Some (MongoServerError "the limit must be positive")
  else None.

(** What the search rethrows for an exception it caught. *)
Definition search_failure (e : Exn) : Exn :=
  ApiError 500
    (if truthy (error_message e) then error_message e
     else "Something went wrong while searching for subscribed channels").

(** The batched lookups of a trace: the subscriber and the [$in] list of
    each [find]. *)
Definition find_of (a : Access) : list (ObjectId * list ObjectId) :=
  match projT2 a with
  | (Subscription_find_select_channel s ids, _) => [(s, ids)]
  | _ => []
  end.

Definition batched_lookups (t : list Access) : list (ObjectId * list ObjectId) :=
  flat_map find_of t.

(** The page and the count of a listing's answer. *)
Definition page_of (r : Settled (HttpResponse ListingData)) : list ChannelItem :=
  match r with
  | Fulfilled resp => subscribedChannels (data (json resp))
  | Rejected _ => []
  end.

Definition total_of (r : Settled (HttpResponse ListingData)) : option nat :=
  match r with
  | Fulfilled resp => Some (totalSubscribedChannels (data (json resp)))
  | Rejected _ => None
  end.

(** The same request with another [userId]. *)
Definition with_userId (userId : option string) (req : Request) : Request :=
  {| params_channelId := params_channelId req; user__id := user__id req;
     query_userId := userId; query_search := query_search req;
     query_page := query_page req; query_limit := query_limit req |}.

(** The same request with another [channelId]. *)
Definition with_channelId (channelId : option string) (req : Request) : Request :=
  {| params_channelId := channelId; user__id := user__id req;
     query_userId := query_userId req; query_search := query_search req;
     query_page := query_page req; query_limit := query_limit req |}.

(** The number of edges [subscriber -> channel] in the store. *)
Definition count_pair (channel subscriber : ObjectId) (w : World) : nat :=
  length (List.filter (edge_of channel subscriber) (subscriptions w)).

(** The edges of all other pairs, in the store's order. *)
Definition other_edges (channel subscriber : ObjectId) (w : World)
    : list Subscription.t :=
  List.filter (fun e => negb (edge_of channel subscriber e)) (subscriptions w).

(** No pair has more than one edge. *)
Definition unique_edges (w : World) : Prop :=
  forall channel subscriber, count_pair channel subscriber w <= 1.

(** The operations that change a collection. *)
Definition is_write {R} (op : Op R) : bool :=
  match op with
  | Subscription_deleteOne _ | Subscription_create _ _ => true
  | _ => false
  end.

(** No path of the tree, whatever the operations settle to, performs a
    write. *)
Fixpoint read_only {A} (p : Prog A) : Prop :=
  match p with
  | Await op k => is_write op = false /\ forall r, read_only (k r)
  | _ => True
  end.

(** A run of [p] on [w] ends with both collections as they were. *)
Definition keeps_collections {A} (p : Prog A) (w : World) : Prop :=
  users (final (run p w)) = users w
  /\ subscriptions (final (run p w)) = subscriptions w.

(** The keys of the data of a status or toggle answer. *)
Definition answer_keys (r : Settled (HttpResponse SubscribedData)) : list string :=
  match r with
  | Fulfilled resp => object_keys (data (json resp))
  | Rejected _ => []
  end.

(** The flag of a status or toggle answer. *)
Definition isSubscribed_of (r : Settled (HttpResponse SubscribedData)) : option bool :=
  match r with
  | Fulfilled resp => Some (isSubscribed (data (json resp)))
  | Rejected _ => None
  end.

(** The [$or] of the search, read on a channel summary. *)
Definition summary_matches `{Mongoose} (search : string) (c : ChannelSummary.t) : bool :=
  regex_i search (ChannelSummary.fullName c) || regex_i search (ChannelSummary.username c).

(** The summary the subscriber listing projects of a user document. *)
Definition summary_of_user (u : User.t) : SubscriberSummary.t :=
  SubscriberSummary.mk (User._id u) (User.username u) (User.fullName u) (User.avatar u).

(** ** A small store to evaluate the handlers on *)
Module Scenario.

Definition alice_id : ObjectId := 10%N.
Definition bob_id : ObjectId := 11%N.
Definition alice_hex : string := "00000000000000000000000a".
Definition bob_hex : string := "00000000000000000000000b".
(** well-formed, but the id of no user *)
Definition nobody_hex : string := "0000000000000000000000ff".

Definition alice : User.t := User.mk alice_id "alice" "Alice A" "a.png".
Definition bob : User.t := User.mk bob_id "bob" "Bob B" "b.png".

Definition gen (n : nat) : ObjectId := (1000 + N.of_nat n)%N.

(** two users, nobody subscribed *)
Definition w0 : World :=
  {| users := [alice; bob]; subscriptions := [];
     oid_gen := gen; oid_taken := 0; now := 5%N |}.

Definition alice_to_bob : Subscription.t :=
  Subscription.mk 1000%N alice_id bob_id 5%N.

(** alice subscribed to bob *)
Definition w1 : World :=
  {| users := [alice; bob]; subscriptions := [alice_to_bob];
     oid_gen := gen; oid_taken := 1; now := 5%N |}.

Definition request (who : ObjectId) (channelId userId : option string) : Request :=
  {| params_channelId := channelId; user__id := who;
     query_userId := userId; query_search := None;
     query_page := None; query_limit := None |}.

Definition carol_id : ObjectId := 12%N.
Definition carol : User.t := User.mk carol_id "carol" "Carol C" "c.png".
Definition alice_to_carol : Subscription.t :=
  Subscription.mk 1001%N alice_id carol_id 6%N.
Definition bob_to_alice : Subscription.t :=
  Subscription.mk 1002%N bob_id alice_id 7%N.

(** three users; alice subscribed to bob and carol, bob to alice *)
Definition w2 : World :=
  {| users := [alice; bob; carol];
     subscriptions := [alice_to_bob; alice_to_carol; bob_to_alice];
     oid_gen := gen; oid_taken := 3; now := 8%N |}.

(** what both listings answer alice on [w1], up to the message *)
Definition answer (msg : string) : HttpResponse ListingData :=
  res_status_json 200
    (new_ApiResponse 200
       {| subscribedChannels :=
            [ {| channel_fields := ChannelSummary.mk bob_id "bob" "Bob B" "b.png" 1;
                 isSubscribedByMe := true |} ];
          currentPage := 1; totalPages := 1; totalSubscribedChannels := 1 |}
       msg).

End Scenario.

(** * Properties *)

(** ** Lists and stores *)

Lemma find_split {D} (p : D -> bool) (l : list D) (e : D) :
  List.find p l = Some e ->
  exists l1 l2, l = l1 ++ e :: l2 /\ p e = true /\ Forall (fun x => p x = false) l1.
Proof.
  induction l as [|d l IH]; simpl; [discriminate|].
  destruct (p d) eqn:E.
  - intros [= <-]. exists [], l. auto.
  - intros F. destruct (IH F) as (l1 & l2 & -> & Hp & Hl).
    exists (d :: l1), l2. repeat split; auto.
Qed.

Lemma find_after_none {D} (p : D -> bool) (l1 l2 : list D) :
  List.find p l1 = None -> List.find p (l1 ++ l2) = List.find p l2.
Proof.
  induction l1 as [|d l1 IH]; simpl; [reflexivity|].
  destruct (p d); [discriminate|exact IH].
Qed.

Lemma delete_first_none {D} (p : D -> bool) (l : list D) :
  Forall (fun x => p x = false) l -> delete_first p l = (l, 0).
Proof.
  induction 1 as [|d l Hd _ IH]; simpl; [reflexivity|].
  now rewrite Hd, IH.
Qed.

Lemma delete_first_here {D} (p : D -> bool) (l1 l2 : list D) (e : D) :
  Forall (fun x => p x = false) l1 -> p e = true ->
  delete_first p (l1 ++ e :: l2) = (l1 ++ l2, 1).
Proof.
  induction 1 as [|d l Hd _ IH]; simpl; intros He.
  - now rewrite He.
  - now rewrite Hd, IH.
Qed.

Lemma mem_oid_In (x : ObjectId) (l : list ObjectId) : mem_oid x l = true <-> In x l.
Proof.
  unfold mem_oid. rewrite existsb_exists. split.
  - intros (y & Hy & E). apply N.eqb_eq in E. now subst.
  - intros Hx. exists x. split; [assumption|apply N.eqb_refl].
Qed.

Lemma mem_oid_fresh (x : ObjectId) (l : list ObjectId) : ~ In x l -> mem_oid x l = false.
Proof.
  intros Hx. destruct (mem_oid x l) eqn:E; [|reflexivity].
  now apply mem_oid_In in E.
Qed.

Lemma edge_of_true (c s : ObjectId) (e : Subscription.t) :
  edge_of c s e = true <-> Subscription.subscriber e = s /\ Subscription.channel e = c.
Proof.
  unfold edge_of. rewrite andb_true_iff, !N.eqb_eq. tauto.
Qed.

Lemma find_edge_has_edge (c s : ObjectId) (w : World) :
  (exists e, List.find (edge_of c s) (subscriptions w) = Some e) <-> has_edge s c w.
Proof.
  split.
  - intros [e F]. exists e. apply find_some in F as [Hin He].
    apply edge_of_true in He. tauto.
  - intros (e & Hin & Hs & Hc).
    destruct (List.find (edge_of c s) (subscriptions w)) eqn:F; [eauto|].
    apply (find_none _ _ F) in Hin.
    assert (edge_of c s e = true) by now apply edge_of_true.
    congruence.
Qed.

Lemma find_edge_none (c s : ObjectId) (w : World) :
  ~ has_edge s c w -> List.find (edge_of c s) (subscriptions w) = None.
Proof.
  intros Hn. destruct (List.find _ _) eqn:F; [|reflexivity].
  exfalso. apply Hn, find_edge_has_edge. eauto.
Qed.

Lemma truthy_param_nonempty (s : string) :
  truthy (Some s) = true <-> s <> "".
Proof.
  unfold truthy, truthy_param. rewrite negb_true_iff. apply String.eqb_neq.
Qed.

(** The first document with the id of [e] is [e] itself when ids are not
    shared. *)
Lemma NoDup_ids_before (l1 l2 : list Subscription.t) (e : Subscription.t) :
  List.NoDup (map Subscription._id (l1 ++ e :: l2)) ->
  Forall (fun x => has_id (Subscription._id e) x = false) l1.
Proof.
  rewrite map_app. simpl. intros ND.
  apply List.Forall_forall. intros x Hx. unfold has_id.
  apply N.eqb_neq. intros E.
  apply NoDup_remove_2 in ND. apply ND.
  apply in_or_app. left. rewrite <- E. now apply in_map.
Qed.

(** ** Status check and toggle *)

(** What a run of [checkSubscriptionStatus] is, case by case. *)
Lemma run_checkSubscriptionStatus `{Mongoose} (req : Request) (w : World) :
  run (checkSubscriptionStatus req) w =
  match params_channelId req with
  | None =>
      {| outcome := Rejected (ApiError 400 "Channel id is required.");
         final := w; trace := [] |}
  | Some s =>
      if (s =? "")%string then
        {| outcome := Rejected (ApiError 400 "Channel id is required.");
           final := w; trace := [] |}
      else
        match parseObjectId s with
        | None =>
            {| outcome := Rejected (ApiError 400 "Invalid channel id.");
               final := w; trace := [] |}
        | Some c =>
            let found := List.find (edge_of c (user__id req)) (subscriptions w) in
            {| outcome :=
                 sent 200 {| spread := None; isSubscribed := truthy found |}
                   "Subscription status retrieved successfully.";
               final := w;
               trace := [access (Subscription_findOne c (user__id req)) (Fulfilled found)] |}
        end
  end.
Proof.
  unfold checkSubscriptionStatus, run.
  destruct (params_channelId req) as [s|]; simpl; [|reflexivity].
  unfold truthy at 1, truthy_param.
  destruct (s =? "")%string; simpl; [reflexivity|].
  unfold findOne, cast_ObjectId.
  destruct (parseObjectId s); reflexivity.
Qed.

(** C2. A status check whose [channelId] is missing (or empty) or is not a
    well-formed id fails with 400 without any store access; otherwise it
    answers 200 with [isSubscribed] true exactly when an edge from the
    requester to that channel exists, and the store is left as it was. *)
Theorem checkSubscriptionStatus_spec `{Mongoose} (req : Request) (w : World) :
  (truthy (params_channelId req) = false
   \/ isValidObjectId (params_channelId req) = false ->
   exists msg,
     run (checkSubscriptionStatus req) w =
     {| outcome := Rejected (ApiError 400 msg); final := w; trace := [] |})
  /\
  (truthy (params_channelId req) = true ->
   isValidObjectId (params_channelId req) = true ->
   exists s c b,
     params_channelId req = Some s /\ parseObjectId s = Some c
     /\ outcome (run (checkSubscriptionStatus req) w) =
        sent 200 {| spread := None; isSubscribed := b |}
          "Subscription status retrieved successfully."
     /\ (b = true <-> has_edge (user__id req) c w)
     /\ final (run (checkSubscriptionStatus req) w) = w).
Proof.
  rewrite run_checkSubscriptionStatus.
  unfold isValidObjectId.
  destruct (params_channelId req) as [s|]; cbn.
  2:{ split; [eauto|discriminate]. }
  destruct (s =? "")%string; cbn.
  { split; [eauto|discriminate]. }
  destruct (parseObjectId s) as [c|] eqn:P.
  2:{ split; [eauto|discriminate]. }
  split.
  { intros [E|E]; discriminate. }
  intros _ _.
  exists s, c, (truthy (List.find (edge_of c (user__id req)) (subscriptions w))).
  split; [reflexivity|]. split; [exact P|]. split; [reflexivity|].
  split; [|reflexivity]. split.
  - unfold truthy, truthy_found. intros E.
    apply find_edge_has_edge.
    destruct (List.find _ _) as [e|]; [eauto|discriminate].
  - intros E. apply find_edge_has_edge in E as [e ->]. reflexivity.
Qed.

(** An instance of C2: a malformed id is refused, a well-formed one is
    looked up. *)
Lemma checkSubscriptionStatus_spec_witness :
  (exists msg,
     run (checkSubscriptionStatus
            (Scenario.request Scenario.alice_id (Some "not-an-id") None)) Scenario.w1 =
     {| outcome := Rejected (ApiError 400 msg); final := Scenario.w1; trace := [] |})
  /\
  (exists s c b,
     Some Scenario.bob_hex = Some s /\ Sample.parse s = Some c
     /\ outcome (run (checkSubscriptionStatus
                        (Scenario.request Scenario.alice_id (Some Scenario.bob_hex) None))
                   Scenario.w1) =
        sent 200 {| spread := None; isSubscribed := b |}
          "Subscription status retrieved successfully."
     /\ (b = true <-> has_edge Scenario.alice_id c Scenario.w1)
     /\ final (run (checkSubscriptionStatus
                      (Scenario.request Scenario.alice_id (Some Scenario.bob_hex) None))
                 Scenario.w1) = Scenario.w1).
Proof.
  split.
  - apply (proj1 (checkSubscriptionStatus_spec
                    (Scenario.request Scenario.alice_id (Some "not-an-id") None)
                    Scenario.w1)).
    right. reflexivity.
  - exact (proj2 (checkSubscriptionStatus_spec
                    (Scenario.request Scenario.alice_id (Some Scenario.bob_hex) None)
                    Scenario.w1) eq_refl eq_refl).
Defined.

(** What a run of [toggleSubscriptionStatus] is once the id is accepted. *)
Lemma run_toggleSubscriptionStatus `{Mongoose} (req : Request) (w : World)
    (s : string) (c : ObjectId) :
  params_channelId req = Some s -> s <> "" -> parseObjectId s = Some c ->
  run (toggleSubscriptionStatus req) w =
  let found := List.find (edge_of c (user__id req)) (subscriptions w) in
  let looked := access (Subscription_findOne c (user__id req)) (Fulfilled found) in
  match found with
  | Some existing =>
      let deleted := delete_first (has_id (Subscription._id existing)) (subscriptions w) in
      {| outcome :=
           sent 200 {| spread := None; isSubscribed := false |}
             "Unsubscribed successfully.";
         final := set_subscriptions (fst deleted) w;
         trace :=
           [looked;
            access (Subscription_deleteOne (Subscription._id existing))
              (Fulfilled {| acknowledged := true; deletedCount := snd deleted |})] |}
  | None =>
      if mem_oid (next_oid w) (map Subscription._id (subscriptions w)) then
        {| outcome := Rejected (MongoServerError "E11000 duplicate key error");
           final := take_oid w;
           trace :=
             [looked;
              access (Subscription_create c (user__id req))
                (Rejected (MongoServerError "E11000 duplicate key error"))] |}
      else
        let doc := Subscription.mk (next_oid w) (user__id req) c (now w) in
        {| outcome :=
             sent 201 {| spread := Some (own_properties doc); isSubscribed := true |}
               "Subscribed successfully.";
           final := set_subscriptions (subscriptions w ++ [doc]) (take_oid w);
           trace :=
             [looked; access (Subscription_create c (user__id req)) (Fulfilled doc)] |}
  end.
Proof.
  intros P Hs Hc. apply truthy_param_nonempty in Hs.
  unfold toggleSubscriptionStatus, run, isValidObjectId.
  rewrite P, Hs, Hc. cbn.
  unfold findOne, create, cast_ObjectId. rewrite Hc. cbn.
  destruct (List.find _ _) as [existing|]; cbn.
  - destruct (delete_first _ _) as [rest n]. reflexivity.
  - destruct (mem_oid _ _); reflexivity.
Qed.

(** What a toggle with a valid [channelId] does: when an edge from the
    requester to the channel exists, that edge (the first one in the store)
    is removed and the answer is 200 with [{isSubscribed: false}]; when none
    exists, an edge from the requester to the channel is added and the
    answer is 201 with the own properties of the created document next to
    [isSubscribed: true]. *)
Theorem toggleSubscriptionStatus_spec `{Mongoose} (req : Request) (w : World)
    (s : string) (c : ObjectId) :
  params_channelId req = Some s -> s <> "" -> parseObjectId s = Some c ->
  store_ok w ->
  (has_edge (user__id req) c w ->
   exists l1 e l2,
     subscriptions w = l1 ++ e :: l2
     /\ Subscription.subscriber e = user__id req /\ Subscription.channel e = c
     /\ subscriptions (final (run (toggleSubscriptionStatus req) w)) = l1 ++ l2
     /\ users (final (run (toggleSubscriptionStatus req) w)) = users w
     /\ outcome (run (toggleSubscriptionStatus req) w) =
        sent 200 {| spread := None; isSubscribed := false |}
          "Unsubscribed successfully.")
  /\
  (~ has_edge (user__id req) c w ->
   exists doc,
     Subscription.subscriber doc = user__id req /\ Subscription.channel doc = c
     /\ subscriptions (final (run (toggleSubscriptionStatus req) w)) =
        subscriptions w ++ [doc]
     /\ users (final (run (toggleSubscriptionStatus req) w)) = users w
     /\ outcome (run (toggleSubscriptionStatus req) w) =
        sent 201 {| spread := Some (own_properties doc); isSubscribed := true |}
          "Subscribed successfully.").
Proof.
  intros P Hs Hc [ND Fresh].
  rewrite (run_toggleSubscriptionStatus req w s c P Hs Hc). cbn zeta.
  split.
  - intros E. apply find_edge_has_edge in E as [e F]. rewrite F.
    destruct (find_split _ _ _ F) as (l1 & l2 & Hl & He & Hl1).
    apply edge_of_true in He as [He1 He2].
    exists l1, e, l2. repeat split; try assumption.
    cbn. rewrite Hl.
    rewrite delete_first_here; [reflexivity| |apply N.eqb_refl].
    apply NoDup_ids_before with (l2 := l2). now rewrite <- Hl.
  - intros E. rewrite (find_edge_none _ _ _ E).
    rewrite (mem_oid_fresh _ _ Fresh).
    exists (Subscription.mk (next_oid w) (user__id req) c (now w)).
    repeat split.
Qed.

(** An instance on the sample store: alice toggles bob's channel when she
    is subscribed, and when she is not. *)
Lemma toggleSubscriptionStatus_spec_witness :
  let req := Scenario.request Scenario.alice_id (Some Scenario.bob_hex) None in
  (exists l1 e l2,
     subscriptions Scenario.w1 = l1 ++ e :: l2
     /\ Subscription.subscriber e = user__id req
     /\ Subscription.channel e = Scenario.bob_id
     /\ subscriptions (final (run (toggleSubscriptionStatus req) Scenario.w1)) = l1 ++ l2
     /\ users (final (run (toggleSubscriptionStatus req) Scenario.w1)) = users Scenario.w1
     /\ outcome (run (toggleSubscriptionStatus req) Scenario.w1) =
        sent 200 {| spread := None; isSubscribed := false |}
          "Unsubscribed successfully.")
  /\
  (exists doc,
     Subscription.subscriber doc = user__id req
     /\ Subscription.channel doc = Scenario.bob_id
     /\ subscriptions (final (run (toggleSubscriptionStatus req) Scenario.w0)) =
        subscriptions Scenario.w0 ++ [doc]
     /\ users (final (run (toggleSubscriptionStatus req) Scenario.w0)) = users Scenario.w0
     /\ outcome (run (toggleSubscriptionStatus req) Scenario.w0) =
        sent 201 {| spread := Some (own_properties doc); isSubscribed := true |}
          "Subscribed successfully.").
Proof.
  intros req.
  assert (Hs : Scenario.bob_hex <> "") by discriminate.
  assert (ok1 : store_ok Scenario.w1).
  { split; cbn.
    - constructor; [intros []|constructor].
    - intros [E|[]]; discriminate. }
  assert (ok0 : store_ok Scenario.w0).
  { split; cbn; [constructor|intros []]. }
  assert (Hc : parseObjectId Scenario.bob_hex = Some Scenario.bob_id) by reflexivity.
  split.
  - apply (proj1 (toggleSubscriptionStatus_spec req Scenario.w1 Scenario.bob_hex
                    Scenario.bob_id eq_refl Hs Hc ok1)).
    exists Scenario.alice_to_bob. cbn. auto.
  - apply (proj2 (toggleSubscriptionStatus_spec req Scenario.w0 Scenario.bob_hex
                    Scenario.bob_id eq_refl Hs Hc ok0)).
    intros (e & [] & _).
Defined.

(** C1. Alice, who is not subscribed, toggles bob's channel. The edge is
    created and the answer is 201, but its data is not the created edge's
    fields next to [isSubscribed]: the handler spreads the mongoose
    document, which copies the document's own properties, so the data has
    the keys [$__], [_doc], [$isNew] and [isSubscribed], and the edge's
    fields sit one level down, under [_doc]. *)
Theorem toggle_subscribe_answer_spreads_document :
  let r := run (toggleSubscriptionStatus
                  (Scenario.request Scenario.alice_id (Some Scenario.bob_hex) None))
             Scenario.w0 in
  let created := Subscription.mk 1000%N Scenario.alice_id Scenario.bob_id 5%N in
  subscriptions (final r) = [created]
  /\ outcome r =
     sent 201
       {| spread := Some {| dollar__ := internal_cache; _doc := created;
                            dollar_isNew := false |};
          isSubscribed := true |}
       "Subscribed successfully."
  /\ answer_keys (outcome r) = ["$__"; "_doc"; "$isNew"; "isSubscribed"].
Proof.
  cbv zeta. repeat split; vm_compute; reflexivity.
Qed.

(** Whenever a toggle answers 201, the data has those four keys, none of
    them a field of the edge. *)
Lemma toggle_201_keys `{Mongoose} (req : Request) (w : World)
    (resp : HttpResponse SubscribedData) :
  outcome (run (toggleSubscriptionStatus req) w) = Fulfilled resp ->
  status resp = 201%Z ->
  object_keys (data (json resp)) = ["$__"; "_doc"; "$isNew"; "isSubscribed"].
Proof.
  unfold toggleSubscriptionStatus, run, isValidObjectId, findOne, create, cast_ObjectId.
  destruct (params_channelId req) as [s|]; cbn; [|discriminate].
  destruct (s =? "")%string; cbn; [discriminate|].
  destruct (parseObjectId s) as [c|]; cbn; [|discriminate].
  destruct (List.find _ _) as [e|]; cbn.
  - destruct (delete_first _ _) as [rest n]. cbn. intros [= <-]. discriminate.
  - destruct (mem_oid _ _); cbn; [discriminate|]. now intros [= <-].
Qed.

(** C4. From a store without an edge from the requester to the channel, the
    first toggle subscribes and a status check then answers [true]; the
    second toggle unsubscribes, leaves the Subscription store as it was
    before the two toggles, hence without such an edge, and a status check
    then answers [false]. *)
Theorem toggle_twice_restores `{Mongoose} (req : Request) (w : World)
    (s : string) (c : ObjectId) :
  params_channelId req = Some s -> s <> "" -> parseObjectId s = Some c ->
  ~ has_edge (user__id req) c w ->
  ~ In (next_oid w) (map Subscription._id (subscriptions w)) ->
  let r1 := run (toggleSubscriptionStatus req) w in
  let r2 := run (toggleSubscriptionStatus req) (final r1) in
  (exists doc,
     outcome r1 = sent 201 {| spread := Some doc; isSubscribed := true |}
                    "Subscribed successfully.")
  /\ outcome (run (checkSubscriptionStatus req) (final r1)) =
     sent 200 {| spread := None; isSubscribed := true |}
       "Subscription status retrieved successfully."
  /\ outcome r2 = sent 200 {| spread := None; isSubscribed := false |}
                    "Unsubscribed successfully."
  /\ subscriptions (final r2) = subscriptions w
  /\ ~ has_edge (user__id req) c (final r2)
  /\ outcome (run (checkSubscriptionStatus req) (final r2)) =
     sent 200 {| spread := None; isSubscribed := false |}
       "Subscription status retrieved successfully.".
Proof.
  intros P Hs Hc Absent Fresh r1 r2.
  assert (Hne : (s =? "")%string = false) by now apply String.eqb_neq.
  pose proof (find_edge_none _ _ _ Absent) as F0.
  assert (E1 : r1 =
    let doc := Subscription.mk (next_oid w) (user__id req) c (now w) in
    {| outcome := sent 201 {| spread := Some (own_properties doc);
                              isSubscribed := true |}
                    "Subscribed successfully.";
       final := set_subscriptions (subscriptions w ++ [doc]) (take_oid w);
       trace := [access (Subscription_findOne c (user__id req)) (Fulfilled None);
                 access (Subscription_create c (user__id req)) (Fulfilled doc)] |}).
  { unfold r1. rewrite (run_toggleSubscriptionStatus req w s c P Hs Hc). cbn zeta.
    rewrite F0, (mem_oid_fresh _ _ Fresh). reflexivity. }
  cbn zeta in E1.
  set (doc := Subscription.mk (next_oid w) (user__id req) c (now w)) in *.
  assert (Hdoc : edge_of c (user__id req) doc = true).
  { apply edge_of_true. split; reflexivity. }
  assert (F1 : List.find (edge_of c (user__id req)) (subscriptions (final r1)) = Some doc).
  { rewrite E1. cbn. rewrite (find_after_none _ _ _ F0). cbn. now rewrite Hdoc. }
  assert (D1 : delete_first (has_id (Subscription._id doc)) (subscriptions (final r1))
               = (subscriptions w, 1)).
  { rewrite E1. cbn -[delete_first].
    rewrite delete_first_here; [now rewrite app_nil_r| |apply N.eqb_refl].
    apply List.Forall_forall. intros x Hx. apply N.eqb_neq. intros E.
    apply Fresh. rewrite <- E. now apply in_map. }
  assert (E2 : r2 =
    {| outcome := sent 200 {| spread := None; isSubscribed := false |}
                    "Unsubscribed successfully.";
       final := set_subscriptions (subscriptions w) (final r1);
       trace := [access (Subscription_findOne c (user__id req)) (Fulfilled (Some doc));
                 access (Subscription_deleteOne (Subscription._id doc))
                   (Fulfilled {| acknowledged := true; deletedCount := 1 |})] |}).
  { unfold r2. rewrite (run_toggleSubscriptionStatus req (final r1) s c P Hs Hc).
    cbn zeta. rewrite F1, D1. reflexivity. }
  split; [exists (own_properties doc); now rewrite E1|].
  split.
  { rewrite run_checkSubscriptionStatus, P, Hne, Hc. cbn zeta. cbn [outcome].
    now rewrite F1. }
  split; [now rewrite E2|].
  split; [now rewrite E2|].
  assert (Absent2 : ~ has_edge (user__id req) c (final r2)).
  { rewrite E2. cbn. intros (e & Hin & He). apply Absent. exists e. auto. }
  split; [exact Absent2|].
  rewrite run_checkSubscriptionStatus, P, Hne, Hc. cbn zeta. cbn [outcome].
  now rewrite (find_edge_none _ _ _ Absent2).
Qed.

(** An instance of C4: alice toggles bob's channel twice on the store where
    nobody is subscribed. *)
Lemma toggle_twice_restores_witness :
  let req := Scenario.request Scenario.alice_id (Some Scenario.bob_hex) None in
  let r1 := run (toggleSubscriptionStatus req) Scenario.w0 in
  let r2 := run (toggleSubscriptionStatus req) (final r1) in
  subscriptions (final r2) = subscriptions Scenario.w0
  /\ outcome (run (checkSubscriptionStatus req) (final r1)) =
     sent 200 {| spread := None; isSubscribed := true |}
       "Subscription status retrieved successfully."
  /\ outcome (run (checkSubscriptionStatus req) (final r2)) =
     sent 200 {| spread := None; isSubscribed := false |}
       "Subscription status retrieved successfully.".
Proof.
  intros req r1 r2.
  assert (Hs : Scenario.bob_hex <> "") by discriminate.
  assert (Absent : ~ has_edge (user__id req) Scenario.bob_id Scenario.w0).
  { intros (e & [] & _). }
  assert (Fresh : ~ In (next_oid Scenario.w0)
                      (map Subscription._id (subscriptions Scenario.w0))).
  { intros []. }
  assert (Hc : parseObjectId Scenario.bob_hex = Some Scenario.bob_id) by reflexivity.
  pose proof (toggle_twice_restores req Scenario.w0 Scenario.bob_hex Scenario.bob_id
                eq_refl Hs Hc Absent Fresh) as T.
  cbn zeta in T. destruct T as (_ & T1 & _ & T2 & _ & T3).
  repeat split; assumption.
Defined.

(** C9. Two toggles of the same requester for the same channel are in
    flight on the store where the edge exists. Both find the edge; the
    second request deletes it; the first request's [deleteOne] then deletes
    nothing ([deletedCount] is 0), and the first request still answers 200
    with [{isSubscribed: false}]: the object [deleteOne] resolves to is
    truthy whatever it counts, so the 500 of the handler is never raised. *)
Theorem toggle_delete_without_effect_answers_200 :
  let req := Scenario.request Scenario.alice_id (Some Scenario.bob_hex) None in
  let both := run_pair [true; false; false]
                (toggleSubscriptionStatus req) (toggleSubscriptionStatus req)
                Scenario.w1 in
  trace (fst both) =
    [access (Subscription_findOne Scenario.bob_id Scenario.alice_id)
       (Fulfilled (Some Scenario.alice_to_bob));
     access (Subscription_deleteOne 1000%N)
       (Fulfilled {| acknowledged := true; deletedCount := 0 |})]
  /\ outcome (fst both) =
     sent 200 {| spread := None; isSubscribed := false |} "Unsubscribed successfully."
  /\ trace (snd both) =
    [access (Subscription_findOne Scenario.bob_id Scenario.alice_id)
       (Fulfilled (Some Scenario.alice_to_bob));
     access (Subscription_deleteOne 1000%N)
       (Fulfilled {| acknowledged := true; deletedCount := 1 |})]
  /\ outcome (snd both) =
     sent 200 {| spread := None; isSubscribed := false |} "Unsubscribed successfully.".
Proof.
  cbv zeta. repeat split; vm_compute; reflexivity.
Qed.

(** Whatever [deleteOne] resolves to, the handler takes it for a success:
    once [findOne] has found an edge, the handler asks for its deletion and
    answers 200 for every result [d] of it, also one that deleted nothing. *)
Lemma toggle_unsubscribe_any_delete_result `{Mongoose} (req : Request)
    (s : string) (c : ObjectId) (existing : Subscription.t) (d : DeleteResult) :
  params_channelId req = Some s -> s <> "" -> parseObjectId s = Some c ->
  exists k1 k2,
    toggleSubscriptionStatus req = Await (Subscription_findOne c (user__id req)) k1
    /\ k1 (Fulfilled (Some existing)) =
       Await (Subscription_deleteOne (Subscription._id existing)) k2
    /\ k2 (Fulfilled d) =
       Return (res_status_json 200
                 (new_ApiResponse 200 {| spread := None; isSubscribed := false |}
                    "Unsubscribed successfully.")).
Proof.
  intros P Hs Hc. apply truthy_param_nonempty in Hs.
  unfold toggleSubscriptionStatus, isValidObjectId, findOne, cast_ObjectId.
  rewrite P, Hs, Hc. cbn. rewrite Hc. cbn.
  eexists. eexists. split; [reflexivity|]. cbn. split; reflexivity.
Qed.

(** ** Subscribers of a channel *)

Lemma run_getChannelSubscribersList `{Mongoose} (req : Request) (w : World) :
  run (getChannelSubscribersList req) w =
  match query_userId req with
  | None =>
      let matchId := next_oid w in
      let found := channelSubscribers_docs matchId (take_oid w) (users w) in
      {| outcome :=
           match found with
           | [] => Rejected (ApiError 404 "No subscribers found for this channel.")
           | _ => sent 200 found "Subscribers fetched successfully."
           end;
         final := take_oid w;
         trace := [access ObjectId_generate (Fulfilled matchId);
                   access (User_aggregate (channelSubscribers_pipeline matchId))
                     (Fulfilled found)] |}
  | Some s =>
      match parseObjectId s with
      | None =>
          {| outcome := Rejected (BSONError "input must be a 24 character hex string, 12 byte Uint8Array, or an integer");
             final := w; trace := [] |}
      | Some matchId =>
          let found := channelSubscribers_docs matchId w (users w) in
          {| outcome :=
               match found with
               | [] => Rejected (ApiError 404 "No subscribers found for this channel.")
               | _ => sent 200 found "Subscribers fetched successfully."
               end;
             final := w;
             trace := [access (User_aggregate (channelSubscribers_pipeline matchId))
                         (Fulfilled found)] |}
      end
  end.
Proof.
  unfold getChannelSubscribersList, run, new_ObjectId.
  destruct (query_userId req) as [s|]; cbn.
  - destruct (parseObjectId s) as [t|]; cbn; [|reflexivity].
    change (channelSubscribers_pipeline t w (users w))
      with (Fulfilled (channelSubscribers_docs t w (users w))).
    destruct (channelSubscribers_docs t w (users w)); reflexivity.
  - change (channelSubscribers_pipeline (next_oid w) (take_oid w) (users w))
      with (Fulfilled (channelSubscribers_docs (next_oid w) (take_oid w) (users w))).
    cbn.
    destruct (channelSubscribers_docs _ _ _); reflexivity.
Qed.

(** C3. Bob has one subscriber, alice. Listing his subscribers with
    [userId] omitted fails with 404, while listing them with [userId] set to
    his own id answers 200 with alice: with [userId] omitted the pipeline
    matches a newly generated id, not the requester's. *)
Theorem getChannelSubscribersList_omitted_userId :
  outcome (run (getChannelSubscribersList
                  (Scenario.request Scenario.bob_id None None)) Scenario.w1) =
    Rejected (ApiError 404 "No subscribers found for this channel.")
  /\ outcome (run (getChannelSubscribersList
                     (Scenario.request Scenario.bob_id None (Some Scenario.bob_hex)))
                Scenario.w1) =
     sent 200 [SubscriberSummary.mk Scenario.alice_id "alice" "Alice A" "a.png"]
       "Subscribers fetched successfully.".
Proof.
  split; vm_compute; reflexivity.
Qed.

(** The pipeline starts from the user documents whose [_id] is the matched
    id: an id that no user has yields nothing. *)
Lemma channelSubscribers_docs_no_user (matchId : ObjectId) (db : World)
    (docs : list User.t) :
  ~ In matchId (map User._id docs) ->
  channelSubscribers_docs matchId db docs = [].
Proof.
  intros Hn. unfold channelSubscribers_docs, agg_match.
  replace (List.filter _ docs) with (@nil User.t); [reflexivity|].
  symmetry. induction docs as [|u l IH]; [reflexivity|].
  simpl in *. destruct (N.eqb_spec (User._id u) matchId) as [E|E].
  - exfalso. apply Hn. now left.
  - apply IH. intros Hin. apply Hn. now right.
Qed.

(** With [userId] omitted, the listing fails with 404 whenever the id the
    process generates is not the id of a user. *)
Lemma getChannelSubscribersList_without_userId `{Mongoose} (req : Request) (w : World) :
  query_userId req = None ->
  ~ In (next_oid w) (map User._id (users w)) ->
  outcome (run (getChannelSubscribersList req) w) =
  Rejected (ApiError 404 "No subscribers found for this channel.").
Proof.
  intros Hu Hn. rewrite run_getChannelSubscribersList, Hu. cbn.
  now rewrite (channelSubscribers_docs_no_user (next_oid w) (take_oid w) (users w) Hn).
Qed.

Lemma agg_unwind_app {D F} (a b : list (D * list F)) :
  agg_unwind (a ++ b) = agg_unwind a ++ agg_unwind b.
Proof. apply flat_map_app. Qed.

Lemma agg_lookup_app {D F} (from : list F) (on : D -> F -> bool) (a b : list D) :
  agg_lookup from on (a ++ b) = agg_lookup from on a ++ agg_lookup from on b.
Proof. apply map_app. Qed.

Lemma subscribers_of_user (u : User.t) (w : World) (l : list Subscription.t) :
  agg_project
    (fun usd : User.t * Subscription.t * User.t =>
       let d := snd usd in
       SubscriberSummary.mk (User._id d) (User.username d) (User.fullName d) (User.avatar d))
    (agg_unwind
       (agg_lookup (users w)
          (fun (us : User.t * Subscription.t) d =>
             (User._id d =? Subscription.subscriber (snd us))%N)
          (map (pair u) l))) =
  flat_map
    (fun e =>
       map (fun u => SubscriberSummary.mk (User._id u) (User.username u)
                       (User.fullName u) (User.avatar u))
         (List.filter (fun u => (User._id u =? Subscription.subscriber e)%N) (users w)))
    l.
Proof.
  induction l as [|e l IH]; [reflexivity|].
  cbn [map flat_map]. rewrite <- IH.
  unfold agg_project, agg_unwind, agg_lookup.
  cbn [map flat_map fst snd]. rewrite map_app, map_map. reflexivity.
Qed.

(** The pipeline gives the spec's join, once per user document that has the
    matched id. *)
Lemma channelSubscribers_docs_join (matchId : ObjectId) (w : World) (docs : list User.t) :
  channelSubscribers_docs matchId w docs =
  flat_map (fun _ => subscriber_summaries matchId w)
    (List.filter (fun u => (User._id u =? matchId)%N) docs).
Proof.
  unfold channelSubscribers_docs, agg_match.
  induction docs as [|u docs IH]; [reflexivity|].
  cbn [List.filter]. destruct (N.eqb_spec (User._id u) matchId) as [E|E]; [|exact IH].
  cbn [flat_map]. rewrite <- IH. clear IH.
  change (u :: List.filter (fun u0 => (User._id u0 =? matchId)%N) docs)
    with ([u] ++ List.filter (fun u0 => (User._id u0 =? matchId)%N) docs).
  rewrite agg_lookup_app, agg_unwind_app, agg_lookup_app, agg_unwind_app.
  unfold agg_project at 1. rewrite map_app. f_equal.
  unfold agg_lookup at 2. cbn [map]. unfold agg_unwind at 2.
  cbn [flat_map fst snd]. rewrite app_nil_r.
  rewrite E. apply subscribers_of_user.
Qed.

(** When exactly one user document has the matched id, the pipeline gives
    the join of the spec. *)
Lemma channelSubscribers_docs_of_user (matchId : ObjectId) (w : World) :
  length (List.filter (fun u => (User._id u =? matchId)%N) (users w)) = 1 ->
  channelSubscribers_docs matchId w (users w) = subscriber_summaries matchId w.
Proof.
  intros Hone. rewrite channelSubscribers_docs_join.
  destruct (List.filter _ (users w)) as [|u [|u' l]]; try discriminate.
  cbn. apply app_nil_r.
Qed.

(** A channel that is no user has no subscribers for the pipeline, whatever
    edges point to it. *)
Lemma getChannelSubscribersList_channel_not_a_user `{Mongoose} (req : Request)
    (w : World) (s : string) (t : ObjectId) :
  query_userId req = Some s -> parseObjectId s = Some t ->
  ~ In t (map User._id (users w)) ->
  outcome (run (getChannelSubscribersList req) w) =
  Rejected (ApiError 404 "No subscribers found for this channel.").
Proof.
  intros Hu Ht Hn. rewrite run_getChannelSubscribersList, Hu, Ht. cbn.
  now rewrite (channelSubscribers_docs_no_user t w (users w) Hn).
Qed.

Lemma filter_id_absent (x : ObjectId) (l : list User.t) :
  ~ In x (map User._id l) ->
  List.filter (fun u => (User._id u =? x)%N) l = [].
Proof.
  induction l as [|u l IH]; simpl; [reflexivity|]. intros Hn.
  destruct (N.eqb_spec (User._id u) x) as [E|E]; [exfalso; apply Hn; now left|].
  apply IH. intros Hin. apply Hn. now right.
Qed.

(** An id of the User store belongs to one user document when the ids are
    distinct. *)
Lemma filter_id_one (x : ObjectId) (l : list User.t) :
  List.NoDup (map User._id l) -> In x (map User._id l) ->
  length (List.filter (fun u => (User._id u =? x)%N) l) = 1.
Proof.
  induction l as [|u l IH]; simpl; [intros _ []|]. intros ND Hin.
  apply NoDup_cons_iff in ND as [Hu ND].
  destruct (N.eqb_spec (User._id u) x) as [E|E].
  - simpl. rewrite filter_id_absent; [reflexivity|]. now rewrite <- E.
  - destruct Hin as [Hin|Hin]; [contradiction|]. now apply IH.
Qed.

(** C7, for a listing that names a channel which is a user. Whatever [page]
    and [limit] are, the run is the one with the parameters left out; it
    answers 200 with the whole sequence of the summaries of the users that
    have an edge to the channel, edge by edge in the store's order, and it
    fails with 404 exactly when that sequence is empty. *)
Theorem getChannelSubscribersList_ignores_paging `{Mongoose} (req : Request) (w : World)
    (s : string) (t : ObjectId) (page limit : option Z) :
  query_userId req = Some s -> parseObjectId s = Some t ->
  List.NoDup (map User._id (users w)) -> In t (map User._id (users w)) ->
  run (getChannelSubscribersList (with_paging page limit req)) w =
  run (getChannelSubscribersList req) w
  /\ outcome (run (getChannelSubscribersList (with_paging page limit req)) w) =
     match subscriber_summaries t w with
     | [] => Rejected (ApiError 404 "No subscribers found for this channel.")
     | subscribers => sent 200 subscribers "Subscribers fetched successfully."
     end.
Proof.
  intros Hu Ht ND Hin. split; [reflexivity|].
  rewrite run_getChannelSubscribersList. cbn [with_paging query_userId].
  rewrite Hu, Ht. cbn.
  rewrite (channelSubscribers_docs_of_user t w (filter_id_one t (users w) ND Hin)).
  destruct (subscriber_summaries t w); reflexivity.
Qed.

(** An instance of C7: bob's subscribers, asked for with page 3 and limit 1,
    are all there. *)
Lemma getChannelSubscribersList_ignores_paging_witness :
  outcome (run (getChannelSubscribersList
                  (with_paging (Some 3%Z) (Some 1%Z)
                     (Scenario.request Scenario.alice_id None (Some Scenario.bob_hex))))
             Scenario.w1) =
  sent 200 [SubscriberSummary.mk Scenario.alice_id "alice" "Alice A" "a.png"]
    "Subscribers fetched successfully.".
Proof.
  assert (Ht : parseObjectId Scenario.bob_hex = Some Scenario.bob_id) by reflexivity.
  assert (ND : List.NoDup (map User._id (users Scenario.w1))).
  { cbn. repeat constructor; cbn; intuition discriminate. }
  assert (Hin : In Scenario.bob_id (map User._id (users Scenario.w1))).
  { cbn. right. left. reflexivity. }
  exact (proj2 (getChannelSubscribersList_ignores_paging
                  (Scenario.request Scenario.alice_id None (Some Scenario.bob_hex))
                  Scenario.w1 Scenario.bob_hex Scenario.bob_id (Some 3%Z) (Some 1%Z)
                  eq_refl Ht ND Hin)).
Defined.

(** C7 for a channel that is no user. Alice toggles a well-formed id that
    no user has; the edge is created. The sequence of subscriber summaries
    of that channel is then alice's, and it is not empty, yet the listing
    asked for that channel fails with 404: its pipeline starts from the user
    document of the channel and finds none. *)
Lemma subscribers_of_channel_without_user_document :
  let w := final (run (toggleSubscriptionStatus
                         (Scenario.request Scenario.alice_id
                            (Some Scenario.nobody_hex) None))
                    Scenario.w0) in
  let req := Scenario.request Scenario.alice_id None (Some Scenario.nobody_hex) in
  target_of req = Some 255%N
  /\ subscriber_summaries 255%N w = [summary_of_user Scenario.alice]
  /\ outcome (run (getChannelSubscribersList req) w) =
     Rejected (ApiError 404 "No subscribers found for this channel.").
Proof.
  cbv zeta. repeat split; vm_compute; reflexivity.
Qed.

(** ** Subscribed channels *)

Lemma run_getUserSubscribedChannels `{Mongoose} (req : Request) (w : World) :
  run (getUserSubscribedChannels req) w =
  let page := default 1%Z (query_page req) in
  let limit := default 10%Z (query_limit req) in
  let skip := ((page - 1) * limit)%Z in
  match target_of req with
  | None =>
      {| outcome := Rejected (CastError "Cast to ObjectId failed");
         final := w; trace := [] |}
  | Some t =>
      let total := count_where_subscriber t (subscriptions w) in
      let counted := access (Subscription_countDocuments t) (Fulfilled total) in
      let pipeline := subscribedChannels_pipeline t skip limit in
      let aggregated := pipeline w (subscriptions w) in
      match aggregated with
      | Rejected e =>
          {| outcome := Rejected e; final := w;
             trace := [counted; access (Subscription_aggregate pipeline) aggregated] |}
      | Fulfilled channels =>
          let ids := map ChannelSummary._id channels in
          {| outcome :=
               sent 200
                 {| subscribedChannels := marked (user__id req) w channels;
                    currentPage := page;
                    totalPages := Math_ceil_div (Z.of_nat total) limit;
                    totalSubscribedChannels := total |}
                 "Fetched subscribed channels successfully";
             final := w;
             trace :=
               [counted; access (Subscription_aggregate pipeline) aggregated;
                access (Subscription_find_select_channel (user__id req) ids)
                  (Fulfilled (select_channel_where (user__id req) ids (subscriptions w)))] |}
      end
  end.
Proof.
  unfold getUserSubscribedChannels, run, target_of, countDocuments, new_ObjectId,
    cast_ObjectId.
  destruct (or_requester (query_userId req) (user__id req)) as [s|o]; cbn.
  - destruct (parseObjectId s) as [t|]; cbn; [|reflexivity].
    destruct (subscribedChannels_pipeline t _ _ w (subscriptions w)); reflexivity.
  - destruct (subscribedChannels_pipeline o _ _ w (subscriptions w)); reflexivity.
Qed.

Lemma run_searchSubscribedChannels `{Mongoose} (req : Request) (w : World) :
  run (searchSubscribedChannels req) w =
  let search := default "" (query_search req) in
  let page := default 1%Z (query_page req) in
  let limit := default 10%Z (query_limit req) in
  let skip := ((page - 1) * limit)%Z in
  match target_of req with
  | None =>
      {| outcome :=
           Rejected (search_failure (BSONError "input must be a 24 character hex string, 12 byte Uint8Array, or an integer"));
         final := w; trace := [] |}
  | Some t =>
      let count_pipeline := searchCount_pipeline t search in
      let pipeline := searchChannels_pipeline t search skip limit in
      if regex_valid search then
        let counts := agg_count (searchFound_docs t search w (subscriptions w)) in
        let total := first_count_or_0 counts in
        let counted :=
          access (Subscription_aggregate count_pipeline) (Fulfilled counts) in
        let aggregated :=
          settled_bind (agg_skip skip (searchChannels_docs t search w (subscriptions w)))
            (agg_limit (parseInt limit)) in
        match aggregated with
        | Rejected e =>
            {| outcome := Rejected (search_failure e); final := w;
               trace := [counted; access (Subscription_aggregate pipeline) aggregated] |}
        | Fulfilled channels =>
            let ids := map ChannelSummary._id channels in
            {| outcome :=
                 sent 200
                   {| subscribedChannels := marked (user__id req) w channels;
                      currentPage := page;
                      totalPages := Math_ceil_div (Z.of_nat total) limit;
                      totalSubscribedChannels := total |}
                   "Searched subscribed channels successfully";
               final := w;
               trace :=
                 [counted; access (Subscription_aggregate pipeline) aggregated;
                  access (Subscription_find_select_channel (user__id req) ids)
                    (Fulfilled
                       (select_channel_where (user__id req) ids (subscriptions w)))] |}
        end
      else
        let refused := MongoServerError "Regular expression is invalid" in
        {| outcome := Rejected (search_failure refused); final := w;
           trace := [access (Subscription_aggregate count_pipeline) (Rejected refused)] |}
  end.
Proof.
  assert (Hsome : forall t,
    run_from
      (try_catch
         (let* target := Return t in
          let* totalSubscribedChannels :=
            await (Subscription_aggregate
                     (searchCount_pipeline target (default "" (query_search req)))) in
          let totalCount := first_count_or_0 totalSubscribedChannels in
          let* target' := Return t in
          let* subscribedChannels :=
            await (Subscription_aggregate
                     (searchChannels_pipeline target' (default "" (query_search req))
                        ((default 1%Z (query_page req) - 1) * default 10%Z (query_limit req))
                        (default 10%Z (query_limit req)))) in
          let* result := mark_subscribedByMe (user__id req) subscribedChannels in
          Return (res_status_json 200
                    (new_ApiResponse 200
                       {| subscribedChannels := result;
                          currentPage := parseInt (default 1%Z (query_page req));
                          totalPages :=
                            Math_ceil_div (Z.of_nat totalCount)
                              (default 10%Z (query_limit req));
                          totalSubscribedChannels := totalCount |}
                       "Searched subscribed channels successfully")))
         (fun error => Throw (search_failure error)))
      w [] =
    (let search := default "" (query_search req) in
     let page := default 1%Z (query_page req) in
     let limit := default 10%Z (query_limit req) in
     let skip := ((page - 1) * limit)%Z in
     let count_pipeline := searchCount_pipeline t search in
     let pipeline := searchChannels_pipeline t search skip limit in
     if regex_valid search then
       let counts := agg_count (searchFound_docs t search w (subscriptions w)) in
       let total := first_count_or_0 counts in
       let counted :=
         access (Subscription_aggregate count_pipeline) (Fulfilled counts) in
       let aggregated :=
         settled_bind (agg_skip skip (searchChannels_docs t search w (subscriptions w)))
           (agg_limit (parseInt limit)) in
       match aggregated with
       | Rejected e =>
           {| outcome := Rejected (search_failure e); final := w;
              trace := [counted; access (Subscription_aggregate pipeline) aggregated] |}
       | Fulfilled channels =>
           let ids := map ChannelSummary._id channels in
           {| outcome :=
                sent 200
                  {| subscribedChannels := marked (user__id req) w channels;
                     currentPage := page;
                     totalPages := Math_ceil_div (Z.of_nat total) limit;
                     totalSubscribedChannels := total |}
                  "Searched subscribed channels successfully";
              final := w;
              trace :=
                [counted; access (Subscription_aggregate pipeline) aggregated;
                 access (Subscription_find_select_channel (user__id req) ids)
                   (Fulfilled
                      (select_channel_where (user__id req) ids (subscriptions w)))] |}
       end
     else
       let refused := MongoServerError "Regular expression is invalid" in
       {| outcome := Rejected (search_failure refused); final := w;
          trace := [access (Subscription_aggregate count_pipeline) (Rejected refused)] |})).
  { intros t. cbn.
    change (searchCount_pipeline t (default "" (query_search req)) w (subscriptions w))
      with (settled_bind (agg_regex (default "" (query_search req)))
              (fun _ => Fulfilled
                 (agg_count (searchFound_docs t (default "" (query_search req)) w
                               (subscriptions w))))).
    unfold agg_regex.
    destruct (regex_valid (default "" (query_search req))) eqn:V; cbn; [|reflexivity].
    match goal with
    | |- context [searchChannels_pipeline ?a ?b ?c ?d w (subscriptions w)] =>
        change (searchChannels_pipeline a b c d w (subscriptions w))
          with (settled_bind (agg_regex b)
                  (fun _ => settled_bind
                     (agg_skip c (searchChannels_docs a b w (subscriptions w)))
                     (agg_limit (parseInt d))))
    end.
    unfold agg_regex. rewrite V. cbn [settled_bind].
    destruct (settled_bind _ _); reflexivity. }
  unfold searchSubscribedChannels, run, target_of, new_ObjectId.
  destruct (or_requester (query_userId req) (user__id req)) as [s|o]; cbn zeta.
  - destruct (parseObjectId s) as [t|]; [apply Hsome|reflexivity].
  - apply Hsome.
Qed.

Lemma paged_result {D} (skip limit : Z) (docs : list D) :
  settled_bind (agg_skip skip docs) (agg_limit (parseInt limit)) =
  match paging_error skip limit with
  | Some e => Rejected e
  | None => Fulfilled (firstn (Z.to_nat limit) (skipn (Z.to_nat skip) docs))
  end.
Proof.
  unfold agg_skip, agg_limit, paging_error, parseInt.
  destruct (skip <? 0)%Z; [reflexivity|]. cbn.
  destruct (limit <=? 0)%Z; reflexivity.
Qed.

Lemma In_firstn {D} (n : nat) (l : list D) (x : D) : In x (firstn n l) -> In x l.
Proof.
  revert l. induction n as [|n IH]; intros [|d l]; simpl; try tauto.
  intros [E|Hin]; [now left|right; now apply IH].
Qed.

Lemma In_skipn {D} (n : nat) (l : list D) (x : D) : In x (skipn n l) -> In x l.
Proof.
  revert l. induction n as [|n IH]; intros [|d l]; simpl; try tauto.
  intros Hin. right. now apply IH.
Qed.

(** The stages before [$skip] compute the spec's join. *)
Lemma subscribedChannels_docs_join (t : ObjectId) (w : World) :
  subscribedChannels_docs t w (subscriptions w) = subscribed_summaries t w.
Proof.
  unfold subscribedChannels_docs, subscribed_summaries, agg_match.
  induction (List.filter _ (subscriptions w)) as [|e l IH]; [reflexivity|].
  cbn [flat_map]. rewrite <- IH. clear IH.
  change (e :: l) with ([e] ++ l).
  rewrite agg_lookup_app, agg_unwind_app, agg_lookup_app.
  unfold agg_project at 1. rewrite map_app. f_equal.
  unfold agg_lookup at 2. cbn [map]. unfold agg_unwind. cbn [flat_map fst snd].
  rewrite app_nil_r. unfold agg_lookup, agg_project. rewrite !map_map.
  reflexivity.
Qed.

Lemma In_subscribed_summaries (t : ObjectId) (w : World) (c : ChannelSummary.t) :
  In c (subscribed_summaries t w) -> has_edge t (ChannelSummary._id c) w.
Proof.
  unfold subscribed_summaries. rewrite in_flat_map.
  intros (e & He & Hc). apply filter_In in He as [He Ht].
  apply in_map_iff in Hc as (u & <- & Hu). apply filter_In in Hu as [_ Hu].
  apply N.eqb_eq in Ht, Hu. exists e. cbn. auto.
Qed.

(** The flag of a channel of the page is the presence of an edge from the
    requester to it. *)
Lemma marked_flag `{Mongoose} (requester : ObjectId) (w : World)
    (page : list ChannelSummary.t) (item : ChannelItem) :
  In item (marked requester w page) ->
  In (channel_fields item) page
  /\ (isSubscribedByMe item = true <->
      has_edge requester (ChannelSummary._id (channel_fields item)) w).
Proof.
  unfold marked. intros Hin. apply in_map_iff in Hin as (c & <- & Hc).
  cbn [channel_fields isSubscribedByMe]. split; [exact Hc|].
  unfold Set_has, subscribedByMeSet, select_channel_where.
  rewrite bool_decide_eq_true, elem_of_list_to_set, list_elem_of_In.
  rewrite map_map, in_map_iff. cbn [ChannelRef.channel]. split.
  - intros (e & E & He). apply toString_inj in E.
    apply filter_In in He as [He Hf]. apply andb_true_iff in Hf as [Hs _].
    apply N.eqb_eq in Hs. exists e. auto.
  - intros (e & He & Hs & E). exists e. split; [now rewrite E|].
    apply filter_In. split; [exact He|].
    apply andb_true_iff. split; [now apply N.eqb_eq|].
    apply mem_oid_In. rewrite E. now apply in_map.
Qed.

Lemma marked_fields `{Mongoose} (requester : ObjectId) (w : World)
    (page : list ChannelSummary.t) :
  map channel_fields (marked requester w page) = page.
Proof.
  unfold marked. rewrite map_map. cbn. apply map_id.
Qed.

Lemma marked_ids `{Mongoose} (requester : ObjectId) (w : World)
    (page : list ChannelSummary.t) :
  map (fun item => ChannelSummary._id (channel_fields item)) (marked requester w page) =
  map ChannelSummary._id page.
Proof.
  unfold marked. rewrite map_map. reflexivity.
Qed.

Lemma Math_ceil_div_spec (a b : Z) :
  (0 < b)%Z ->
  ((Math_ceil_div a b - 1) * b < a <= Math_ceil_div a b * b)%Z.
Proof.
  intros Hb. unfold Math_ceil_div.
  pose proof (Z.div_mod (- a) b ltac:(lia)) as E.
  pose proof (Z.mod_pos_bound (- a) b Hb) as B.
  nia.
Qed.




(** C6. In an answer of the subscribed-channels listing and in an answer of
    the search, the flag [isSubscribedByMe] of every channel of the page is
    true exactly when an edge from the requester to that channel exists.
    The run consists of three store operations and no other: the count,
    the aggregation of the page, and one [find] for the requester and
    exactly the channel ids of the page. *)
Theorem isSubscribedByMe_batched `{Mongoose} (req : Request) (w : World)
    (resp : HttpResponse ListingData) :
  let ids := map (fun item => ChannelSummary._id (channel_fields item))
               (subscribedChannels (data (json resp))) in
  let channels := map channel_fields (subscribedChannels (data (json resp))) in
  let search := default "" (query_search req) in
  let page := default 1%Z (query_page req) in
  let limit := default 10%Z (query_limit req) in
  let skip := ((page - 1) * limit)%Z in
  let batched :=
    access (Subscription_find_select_channel (user__id req) ids)
      (Fulfilled (select_channel_where (user__id req) ids (subscriptions w))) in
  let flags_ok :=
    forall item, In item (subscribedChannels (data (json resp))) ->
      (isSubscribedByMe item = true <->
       has_edge (user__id req) (ChannelSummary._id (channel_fields item)) w) in
  (outcome (run (getUserSubscribedChannels req) w) = Fulfilled resp ->
   flags_ok
   /\ batched_lookups (trace (run (getUserSubscribedChannels req) w)) =
      [(user__id req, ids)]
   /\ exists t,
        target_of req = Some t
        /\ trace (run (getUserSubscribedChannels req) w) =
           [access (Subscription_countDocuments t)
              (Fulfilled (totalSubscribedChannels (data (json resp))));
            access (Subscription_aggregate (subscribedChannels_pipeline t skip limit))
              (Fulfilled channels);
            batched])
  /\
  (outcome (run (searchSubscribedChannels req) w) = Fulfilled resp ->
   flags_ok
   /\ batched_lookups (trace (run (searchSubscribedChannels req) w)) =
      [(user__id req, ids)]
   /\ exists t counts,
        target_of req = Some t
        /\ trace (run (searchSubscribedChannels req) w) =
           [access (Subscription_aggregate (searchCount_pipeline t search))
              (Fulfilled counts);
            access (Subscription_aggregate (searchChannels_pipeline t search skip limit))
              (Fulfilled channels);
            batched]).
Proof.
  intros ids channels search page limit skip batched flags_ok.
  subst ids channels search page limit skip batched flags_ok. split.
  - rewrite run_getUserSubscribedChannels. cbn zeta.
    destruct (target_of req) as [t|]; [|discriminate].
    destruct (subscribedChannels_pipeline _ _ _ _ _) as [page|e]; [|discriminate].
    cbn [outcome trace]. intros [= <-].
    cbn [data json res_status_json new_ApiResponse subscribedChannels
         totalSubscribedChannels].
    rewrite marked_ids, marked_fields.
    split; [intros item Hin; now apply marked_flag in Hin|].
    split; [reflexivity|]. exists t. split; reflexivity.
  - rewrite run_searchSubscribedChannels. cbn zeta.
    destruct (target_of req) as [t|]; [|discriminate].
    destruct (regex_valid _); [|discriminate].
    destruct (settled_bind _ _) as [page|e]; [|discriminate].
    cbn [outcome trace]. intros [= <-].
    cbn [data json res_status_json new_ApiResponse subscribedChannels
         totalSubscribedChannels].
    rewrite marked_ids, marked_fields.
    split; [intros item Hin; now apply marked_flag in Hin|].
    split; [reflexivity|]. eexists t, _. split; reflexivity.
Qed.

(** An instance of C6 on the sample store, for both handlers. *)
Lemma isSubscribedByMe_batched_witness :
  let req := Scenario.request Scenario.alice_id None None in
  batched_lookups (trace (run (getUserSubscribedChannels req) Scenario.w1)) =
    [(Scenario.alice_id, [Scenario.bob_id])]
  /\ batched_lookups (trace (run (searchSubscribedChannels req) Scenario.w1)) =
    [(Scenario.alice_id, [Scenario.bob_id])].
Proof.
  intros req.
  assert (E1 : outcome (run (getUserSubscribedChannels req) Scenario.w1) =
               Fulfilled (Scenario.answer "Fetched subscribed channels successfully"))
    by (vm_compute; reflexivity).
  assert (E2 : outcome (run (searchSubscribedChannels req) Scenario.w1) =
               Fulfilled (Scenario.answer "Searched subscribed channels successfully"))
    by (vm_compute; reflexivity).
  split.
  - exact (proj1 (proj2 (proj1 (isSubscribedByMe_batched req Scenario.w1 _) E1))).
  - exact (proj1 (proj2 (proj2 (isSubscribedByMe_batched req Scenario.w1 _) E2))).
Defined.

(** C10. When [userId] is omitted, every channel of the page the listing
    answers with has [isSubscribedByMe] true. *)
Theorem own_listing_all_subscribedByMe `{Mongoose} (req : Request) (w : World)
    (resp : HttpResponse ListingData) :
  query_userId req = None ->
  outcome (run (getUserSubscribedChannels req) w) = Fulfilled resp ->
  forall item, In item (subscribedChannels (data (json resp))) ->
    isSubscribedByMe item = true.
Proof.
  intros Hu. rewrite run_getUserSubscribedChannels. cbn zeta.
  unfold target_of. rewrite Hu. cbn [or_requester].
  unfold subscribedChannels_pipeline. rewrite paged_result.
  destruct (paging_error _ _); [discriminate|].
  cbn [outcome]. intros [= <-]. cbn. intros item Hin.
  apply marked_flag in Hin as [Hpage Hflag]. apply Hflag.
  apply In_subscribed_summaries.
  rewrite <- subscribedChannels_docs_join.
  eapply In_skipn, In_firstn, Hpage.
Qed.

(** An instance of C10: alice's own listing on the sample store. *)
Lemma own_listing_all_subscribedByMe_witness :
  List.Forall (fun item => isSubscribedByMe item = true)
    (page_of (outcome (run (getUserSubscribedChannels
                              (Scenario.request Scenario.alice_id None None))
                         Scenario.w1))).
Proof.
  assert (E : outcome (run (getUserSubscribedChannels
                              (Scenario.request Scenario.alice_id None None))
                         Scenario.w1) =
              Fulfilled (Scenario.answer "Fetched subscribed channels successfully"))
    by (vm_compute; reflexivity).
  rewrite E. apply List.Forall_forall.
  exact (own_listing_all_subscribedByMe
           (Scenario.request Scenario.alice_id None None) Scenario.w1 _ eq_refl E).
Defined.

(** ** Search *)

Lemma first_count_of_count {D} (docs : list D) :
  first_count_or_0 (agg_count docs) = length docs.
Proof. destruct docs; reflexivity. Qed.

Lemma filter_all {D} (p : D -> bool) (l : list D) :
  (forall x, p x = true) -> List.filter p l = l.
Proof.
  intros Hp. induction l as [|d l IH]; simpl; [reflexivity|].
  now rewrite Hp, IH.
Qed.

Lemma length_unwind_lookup_one {D F} (from : list F) (on : D -> F -> bool)
    (docs : list D) :
  (forall d, In d docs -> length (List.filter (on d) from) = 1) ->
  length (agg_unwind (agg_lookup from on docs)) = length docs.
Proof.
  induction docs as [|d docs IH]; intros Hone; [reflexivity|].
  change (d :: docs) with ([d] ++ docs).
  rewrite agg_lookup_app, agg_unwind_app, !length_app, IH.
  - f_equal. unfold agg_lookup, agg_unwind. cbn [map flat_map fst snd].
    rewrite app_nil_r, length_map. apply Hone. now left.
  - intros x Hx. apply Hone. now right.
Qed.

(** The empty pattern filters nothing out. *)
Lemma searchFound_docs_empty `{Mongoose} (t : ObjectId) (w : World)
    (docs : list Subscription.t) :
  searchFound_docs t "" w docs =
  agg_unwind
    (agg_lookup (users w) (fun e u => (User._id u =? Subscription.channel e)%N)
       (agg_match (fun e => (Subscription.subscriber e =? t)%N) docs)).
Proof.
  unfold searchFound_docs, agg_match at 1. apply filter_all.
  intros eu. unfold search_matches. now rewrite regex_i_empty.
Qed.

(** C8, with the condition the code needs. When every edge of the target has exactly one
    user document for its channel, a search with the empty pattern and the
    plain listing of the same request report the same
    [totalSubscribedChannels] (and one fails when the other does). *)
Theorem search_empty_same_count `{Mongoose} (req : Request) (w : World) :
  default "" (query_search req) = "" ->
  (forall t e, target_of req = Some t ->
     In e (subscriptions w) -> Subscription.subscriber e = t ->
     length (List.filter (fun u => (User._id u =? Subscription.channel e)%N) (users w)) = 1) ->
  total_of (outcome (run (searchSubscribedChannels req) w)) =
  total_of (outcome (run (getUserSubscribedChannels req) w)).
Proof.
  intros Hs Hone.
  rewrite run_searchSubscribedChannels, run_getUserSubscribedChannels. cbn zeta.
  rewrite Hs, regex_valid_empty.
  destruct (target_of req) as [t|]; [|reflexivity].
  unfold subscribedChannels_pipeline.
  rewrite !paged_result.
  destruct (paging_error _ _); [reflexivity|].
  cbn. f_equal.
  rewrite first_count_of_count, searchFound_docs_empty.
  rewrite length_unwind_lookup_one; [reflexivity|].
  intros e He. apply filter_In in He as [He Ht]. apply N.eqb_eq in Ht.
  now apply (Hone t e).
Qed.

(** An instance of C8 under that condition: on the sample store every
    channel is a user, and both handlers count one channel for alice. *)
Lemma search_empty_same_count_witness :
  total_of (outcome (run (searchSubscribedChannels
                            (Scenario.request Scenario.alice_id None None))
                       Scenario.w1)) =
  total_of (outcome (run (getUserSubscribedChannels
                            (Scenario.request Scenario.alice_id None None))
                       Scenario.w1)).
Proof.
  apply search_empty_same_count; [reflexivity|].
  intros t e _ [<-|[]] _. reflexivity.
Defined.

(** C8 without that condition. Alice toggles a well-formed id that no user
    has; the edge is created. The listing then counts one subscribed
    channel, the search with the empty pattern none. *)
Lemma search_empty_count_differs :
  let w := final (run (toggleSubscriptionStatus
                         (Scenario.request Scenario.alice_id
                            (Some Scenario.nobody_hex) None))
                    Scenario.w0) in
  let req := with_search (Some "") (Scenario.request Scenario.alice_id None None) in
  total_of (outcome (run (searchSubscribedChannels req) w)) = Some 0
  /\ total_of (outcome (run (getUserSubscribedChannels req) w)) = Some 1
  /\ total_of (outcome (run (searchSubscribedChannels req) w)) <>
     total_of (outcome (run (getUserSubscribedChannels req) w)).
Proof.
  cbv zeta. split; [vm_compute; reflexivity|].
  split; [vm_compute; reflexivity|].
  vm_compute. discriminate.
Qed.

(** * Further properties of the handlers *)

(** ** Toggle *)

(** X1. A toggle whose [channelId] is missing, empty or not a well-formed id
    fails with 400 before any store operation, and the store is left as it
    was. *)
Theorem toggleSubscriptionStatus_invalid_id `{Mongoose} (req : Request) (w : World) :
  truthy (params_channelId req) = false
  \/ isValidObjectId (params_channelId req) = false ->
  exists msg,
    run (toggleSubscriptionStatus req) w =
    {| outcome := Rejected (ApiError 400 msg); final := w; trace := [] |}.
Proof.
  unfold toggleSubscriptionStatus, run, isValidObjectId.
  destruct (params_channelId req) as [s|]; cbn; [|eauto].
  destruct (s =? "")%string; cbn; [eauto|].
  destruct (parseObjectId s); cbn; [|eauto].
  intros [E|E]; discriminate.
Qed.

Lemma toggleSubscriptionStatus_invalid_id_witness :
  exists msg,
    run (toggleSubscriptionStatus
           (Scenario.request Scenario.alice_id (Some "bob") None)) Scenario.w1 =
    {| outcome := Rejected (ApiError 400 msg); final := Scenario.w1; trace := [] |}.
Proof.
  apply (toggleSubscriptionStatus_invalid_id
           (Scenario.request Scenario.alice_id (Some "bob") None) Scenario.w1).
  right. reflexivity.
Defined.

(** What a toggle with an accepted id does to the Subscription store, when
    the documents have ids of their own: it takes out the first edge of the
    pair, or, when the pair has none, leaves the store or appends an edge of
    the pair. *)
Lemma toggle_effect `{Mongoose} (req : Request) (w : World) (s : string) (c : ObjectId) :
  params_channelId req = Some s -> s <> "" -> parseObjectId s = Some c ->
  List.NoDup (map Subscription._id (subscriptions w)) ->
  let after := subscriptions (final (run (toggleSubscriptionStatus req) w)) in
  (exists l1 e l2,
     subscriptions w = l1 ++ e :: l2 /\ edge_of c (user__id req) e = true
     /\ Forall (fun x => edge_of c (user__id req) x = false) l1
     /\ after = l1 ++ l2)
  \/ (List.find (edge_of c (user__id req)) (subscriptions w) = None
      /\ ((In (next_oid w) (map Subscription._id (subscriptions w))
           /\ after = subscriptions w)
          \/ (~ In (next_oid w) (map Subscription._id (subscriptions w))
              /\ exists doc, edge_of c (user__id req) doc = true
                             /\ Subscription._id doc = next_oid w
                             /\ after = subscriptions w ++ [doc]))).
Proof.
  intros P Hs Hc ND after. subst after.
  rewrite (run_toggleSubscriptionStatus req w s c P Hs Hc). cbn zeta.
  destruct (List.find _ _) as [e|] eqn:F.
  - left. destruct (find_split _ _ _ F) as (l1 & l2 & Hl & He & Hl1).
    exists l1, e, l2. repeat split; try assumption.
    cbn. rewrite Hl.
    rewrite delete_first_here; [reflexivity| |apply N.eqb_refl].
    apply NoDup_ids_before with (l2 := l2). now rewrite <- Hl.
  - right. split; [reflexivity|].
    destruct (mem_oid _ _) eqn:M; cbn; [left; split; [now apply mem_oid_In|reflexivity]|right].
    split.
    + intros Hin. apply mem_oid_In in Hin. congruence.
    + exists (Subscription.mk (next_oid w) (user__id req) c (now w)).
      split; [|split; reflexivity].
      apply edge_of_true. split; reflexivity.
Qed.

Lemma filter_none {D} (p : D -> bool) (l : list D) :
  List.Forall (fun x => p x = false) l -> List.filter p l = [].
Proof.
  induction 1 as [|d l Hd _ IH]; simpl; [reflexivity|]. now rewrite Hd.
Qed.

Lemma find_none_filter {D} (p : D -> bool) (l : list D) :
  List.find p l = None -> List.filter p l = [].
Proof.
  induction l as [|d l IH]; simpl; [reflexivity|].
  destruct (p d); [discriminate|exact IH].
Qed.

(** X2. A toggle by [r] for channel [c] leaves the edges of every other pair
    as they were, in the same order. *)
Theorem toggle_keeps_other_edges `{Mongoose} (req : Request) (w : World)
    (s : string) (c : ObjectId) :
  params_channelId req = Some s -> s <> "" -> parseObjectId s = Some c ->
  List.NoDup (map Subscription._id (subscriptions w)) ->
  other_edges c (user__id req) (final (run (toggleSubscriptionStatus req) w)) =
  other_edges c (user__id req) w.
Proof.
  intros P Hs Hc ND. unfold other_edges.
  destruct (toggle_effect req w s c P Hs Hc ND)
    as [(l1 & e & l2 & Hl & He & _ & ->)|(_ & [[_ ->]|(_ & doc & Hd & _ & ->)])].
  - rewrite Hl, !List.filter_app. cbn. now rewrite He.
  - reflexivity.
  - rewrite List.filter_app. cbn. rewrite Hd. cbn. apply app_nil_r.
Qed.

(** X3. On a store whose ids are distinct and whose next generated id is
    unused, a toggle changes the number of edges of its pair by exactly one:
    from none to one, and from [n] to [n - 1] otherwise. *)
Theorem toggle_counts `{Mongoose} (req : Request) (w : World)
    (s : string) (c : ObjectId) :
  params_channelId req = Some s -> s <> "" -> parseObjectId s = Some c ->
  store_ok w ->
  count_pair c (user__id req) (final (run (toggleSubscriptionStatus req) w)) =
  match count_pair c (user__id req) w with
  | 0 => 1
  | S n => n
  end.
Proof.
  intros P Hs Hc [ND Fresh]. unfold count_pair.
  destruct (toggle_effect req w s c P Hs Hc ND)
    as [(l1 & e & l2 & Hl & He & Hl1 & ->)|(F & [[E _]|(_ & doc & Hd & _ & ->)])].
  - rewrite Hl, !List.filter_app. cbn. rewrite He.
    rewrite (filter_none _ _ Hl1). reflexivity.
  - contradiction.
  - rewrite List.filter_app, (find_none_filter _ _ F). cbn. now rewrite Hd.
Qed.

(** X4. A toggle served alone keeps the invariant of the data model: when
    no pair has more than one edge before it, none has after it. *)
Theorem toggle_keeps_unique_edges `{Mongoose} (req : Request) (w : World)
    (s : string) (c : ObjectId) :
  params_channelId req = Some s -> s <> "" -> parseObjectId s = Some c ->
  List.NoDup (map Subscription._id (subscriptions w)) ->
  unique_edges w ->
  unique_edges (final (run (toggleSubscriptionStatus req) w)).
Proof.
  intros P Hs Hc ND U c' s'. specialize (U c' s'). unfold count_pair in *.
  destruct (toggle_effect req w s c P Hs Hc ND)
    as [(l1 & e & l2 & Hl & He & Hl1 & ->)|(F & [[_ ->]|(_ & doc & Hd & _ & ->)])].
  - rewrite Hl, !List.filter_app, !List.length_app in *. cbn in U.
    destruct (edge_of c' s' e); cbn in U; lia.
  - exact U.
  - rewrite List.filter_app, List.length_app. cbn.
    destruct (edge_of c' s' doc) eqn:E; cbn; [|lia].
    apply edge_of_true in Hd as [Hd1 Hd2]. apply edge_of_true in E as [E1 E2].
    rewrite <- E1, <- E2, Hd1, Hd2, (find_none_filter _ _ F). cbn. lia.
Qed.

Lemma find_some_filter {D} (p : D -> bool) (l : list D) (e : D) :
  List.find p l = Some e -> List.filter p l <> [].
Proof.
  induction l as [|d l IH]; simpl; [discriminate|].
  destruct (p d); [discriminate|exact IH].
Qed.

(** X5. On a store where the pair has at most one edge, a toggle flips what
    the status check answers: [isSubscribed] after the toggle is the
    negation of [isSubscribed] before it. *)
Theorem toggle_flips_status `{Mongoose} (req : Request) (w : World)
    (s : string) (c : ObjectId) :
  params_channelId req = Some s -> s <> "" -> parseObjectId s = Some c ->
  store_ok w -> count_pair c (user__id req) w <= 1 ->
  isSubscribed_of
    (outcome (run (checkSubscriptionStatus req)
                (final (run (toggleSubscriptionStatus req) w)))) =
  option_map negb (isSubscribed_of (outcome (run (checkSubscriptionStatus req) w))).
Proof.
  intros P Hs Hc [ND Fresh] U.
  assert (Hne : (s =? "")%string = false) by now apply String.eqb_neq.
  rewrite !run_checkSubscriptionStatus, P, Hne, Hc. cbn.
  f_equal. unfold count_pair in U.
  destruct (toggle_effect req w s c P Hs Hc ND)
    as [(l1 & e & l2 & Hl & He & Hl1 & ->)|(F & [[E _]|(_ & doc & Hd & _ & ->)])].
  - rewrite Hl in *. rewrite List.filter_app, List.length_app in U. cbn in U.
    rewrite He in U. cbn in U.
    assert (F2 : List.filter (edge_of c (user__id req)) l2 = []).
    { destruct (List.filter _ l2); [reflexivity|cbn in U; lia]. }
    assert (F1 : List.find (edge_of c (user__id req)) l1 = None).
    { clear - Hl1. induction Hl1 as [|d l Hd _ IH]; simpl; [reflexivity|].
      now rewrite Hd. }
    rewrite !(find_after_none _ _ _ F1). cbn. rewrite He. cbn.
    destruct (List.find _ l2) as [x|] eqn:Fx; [|reflexivity].
    now apply find_some_filter in Fx.
  - contradiction.
  - rewrite (find_after_none _ _ _ F), F. cbn. now rewrite Hd.
Qed.

(** X6. Two toggles of the same requester for the same channel that both
    look the edge up before either writes: on a store without the edge both
    answer 201, and the store ends with two edges of the pair. The
    check-then-act of the handler does not keep the pair unique under
    interleaving. *)
Theorem concurrent_toggles_duplicate_edge `{Mongoose} (req : Request) (w : World)
    (s : string) (c : ObjectId) :
  params_channelId req = Some s -> s <> "" -> parseObjectId s = Some c ->
  ~ has_edge (user__id req) c w ->
  ~ In (oid_gen w (oid_taken w)) (map Subscription._id (subscriptions w)) ->
  ~ In (oid_gen w (S (oid_taken w))) (map Subscription._id (subscriptions w)) ->
  oid_gen w (S (oid_taken w)) <> oid_gen w (oid_taken w) ->
  let both := run_pair [true; false]
                (toggleSubscriptionStatus req) (toggleSubscriptionStatus req) w in
  (exists d1, outcome (fst both) =
                sent 201 {| spread := Some d1; isSubscribed := true |}
                  "Subscribed successfully.")
  /\ (exists d2, outcome (snd both) =
                   sent 201 {| spread := Some d2; isSubscribed := true |}
                     "Subscribed successfully.")
  /\ count_pair c (user__id req) (final (snd both)) = 2.
Proof.
  intros P Hs Hc Absent F0 F1 Hg both.
  apply String.eqb_neq in Hs.
  pose proof (find_edge_none _ _ _ Absent) as F.
  assert (M0 := mem_oid_fresh _ _ F0). assert (M1 := mem_oid_fresh _ _ F1).
  subst both. destruct req as [ch r uid se pg li]. cbn in P, F, Absent |- *. subst ch.
  unfold run_pair, toggleSubscriptionStatus, isValidObjectId, findOne, create,
    cast_ObjectId, truthy at 1 3, truthy_param.
  cbn. destruct (parseObjectId s) as [c0|]; [|discriminate]. injection Hc as ->.
  rewrite Hs. cbn. rewrite F. cbn.
  unfold finish_pair. cbn. unfold next_oid. rewrite M0. cbn.
  rewrite map_app. cbn.
  assert (M2 : mem_oid (oid_gen w (S (oid_taken w)))
                 (map Subscription._id (subscriptions w)
                  ++ [oid_gen w (oid_taken w)]) = false).
  { apply mem_oid_fresh. intros Hin. apply in_app_or in Hin as [Hin|[E|[]]].
    - now apply F1.
    - now apply Hg. }
  unfold mem_oid in M2. rewrite M2. cbn.
  split; [eexists; reflexivity|]. split; [eexists; reflexivity|].
  unfold count_pair. cbn. rewrite !List.filter_app, (find_none_filter _ _ F).
  cbn. unfold edge_of. cbn. now rewrite !N.eqb_refl.
Qed.

(** ** What the reading handlers never do *)

Lemma read_only_bind {A B} (p : Prog A) (f : A -> Prog B) :
  read_only p -> (forall a, read_only (f a)) -> read_only (bind p f).
Proof.
  intros Hp Hf. induction p as [a|e|R op k IH]; cbn; auto.
  destruct Hp as [Hop Hk]. split; [exact Hop|]. intros r. apply IH, Hk.
Qed.

Lemma read_only_try_catch {A} (p : Prog A) (h : Exn -> Prog A) :
  read_only p -> (forall e, read_only (h e)) -> read_only (try_catch p h).
Proof.
  intros Hp Hh. induction p as [a|e|R op k IH]; cbn; auto.
  destruct Hp as [Hop Hk]. split; [exact Hop|]. intros r. apply IH, Hk.
Qed.

Lemma read_only_await {R} (op : Op R) : is_write op = false -> read_only (await op).
Proof.
  intros Hop. split; [exact Hop|]. intros [v|e]; exact I.
Qed.

Lemma read_only_cast `{Mongoose} (v : IdArg) : read_only (cast_ObjectId v).
Proof.
  destruct v as [s|o]; cbn; [|exact I]. destruct (parseObjectId s); exact I.
Qed.

Lemma read_only_new_ObjectId `{Mongoose} (v : option IdArg) : read_only (new_ObjectId v).
Proof.
  destruct v as [[s|o]|]; cbn; try exact I.
  - destruct (parseObjectId s); exact I.
  - split; [reflexivity|]. intros [x|e]; exact I.
Qed.

Lemma read_only_mark `{Mongoose} (r : ObjectId) (page : list ChannelSummary.t) :
  read_only (mark_subscribedByMe r page).
Proof.
  unfold mark_subscribedByMe. apply read_only_bind; [|intros; exact I].
  now apply read_only_await.
Qed.

Lemma read_only_checkSubscriptionStatus `{Mongoose} (req : Request) :
  read_only (checkSubscriptionStatus req).
Proof.
  unfold checkSubscriptionStatus.
  destruct (negb (truthy _)); [exact I|].
  destruct (negb (isValidObjectId _)); [exact I|].
  apply read_only_bind; [|intros; exact I].
  unfold findOne. apply read_only_bind; [apply read_only_cast|].
  intros c. now apply read_only_await.
Qed.

Lemma read_only_getChannelSubscribersList `{Mongoose} (req : Request) :
  read_only (getChannelSubscribersList req).
Proof.
  unfold getChannelSubscribersList. cbv zeta.
  apply read_only_bind; [apply read_only_new_ObjectId|]. intros matchId.
  apply read_only_bind; [now apply read_only_await|]. intros l.
  destruct (negb _); exact I.
Qed.

Lemma read_only_getUserSubscribedChannels `{Mongoose} (req : Request) :
  read_only (getUserSubscribedChannels req).
Proof.
  unfold getUserSubscribedChannels, countDocuments. cbv zeta.
  apply read_only_bind.
  { apply read_only_bind; [apply read_only_cast|].
    intros c. now apply read_only_await. }
  intros total.
  apply read_only_bind; [apply read_only_new_ObjectId|]. intros t.
  apply read_only_bind; [now apply read_only_await|]. intros page.
  apply read_only_bind; [apply read_only_mark|]. intros; exact I.
Qed.

Lemma read_only_searchSubscribedChannels `{Mongoose} (req : Request) :
  read_only (searchSubscribedChannels req).
Proof.
  unfold searchSubscribedChannels. cbv zeta.
  apply read_only_try_catch; [|intros; exact I].
  apply read_only_bind; [apply read_only_new_ObjectId|]. intros t.
  apply read_only_bind; [now apply read_only_await|]. intros counts.
  apply read_only_bind; [apply read_only_new_ObjectId|]. intros t'.
  apply read_only_bind; [now apply read_only_await|]. intros page.
  apply read_only_bind; [apply read_only_mark|]. intros; exact I.
Qed.

Lemma exec_keeps_users {R} (op : Op R) (w : World) :
  users (snd (exec op w)) = users w.
Proof.
  destruct op; cbn; try reflexivity.
  - destruct (delete_first _ _); reflexivity.
  - destruct (mem_oid _ _); reflexivity.
Qed.

Lemma exec_read_keeps_subscriptions {R} (op : Op R) (w : World) :
  is_write op = false -> subscriptions (snd (exec op w)) = subscriptions w.
Proof.
  destruct op; cbn; try reflexivity; discriminate.
Qed.

Lemma run_from_keeps_users {A} (p : Prog A) (w : World) (seen : list Access) :
  users (final (run_from p w seen)) = users w.
Proof.
  revert w seen. induction p as [a|e|R op k IH]; intros w seen; cbn;
    try reflexivity.
  pose proof (exec_keeps_users op w) as E.
  destruct (exec op w) as [r w']. cbn in E. now rewrite IH.
Qed.

Lemma run_from_read_only {A} (p : Prog A) (w : World) (seen : list Access) :
  read_only p -> subscriptions (final (run_from p w seen)) = subscriptions w.
Proof.
  revert w seen. induction p as [a|e|R op k IH]; intros w seen Hp; cbn;
    try reflexivity.
  destruct Hp as [Hop Hk].
  pose proof (exec_read_keeps_subscriptions op w Hop) as E.
  destruct (exec op w) as [r w']. cbn in E. rewrite IH; auto.
Qed.

(** X7. The status check, the subscriber listing, the subscribed-channels
    listing and the search never write: for every request and every store,
    both collections are after the run what they were before it, whether
    the handler answers or fails. The toggle never changes the users. *)
Theorem reading_handlers_keep_collections `{Mongoose} (req : Request) (w : World) :
  keeps_collections (checkSubscriptionStatus req) w
  /\ keeps_collections (getChannelSubscribersList req) w
  /\ keeps_collections (getUserSubscribedChannels req) w
  /\ keeps_collections (searchSubscribedChannels req) w
  /\ users (final (run (toggleSubscriptionStatus req) w)) = users w.
Proof.
  unfold keeps_collections, run.
  repeat split; try apply run_from_keeps_users; apply run_from_read_only.
  - apply read_only_checkSubscriptionStatus.
  - apply read_only_getChannelSubscribersList.
  - apply read_only_getUserSubscribedChannels.
  - apply read_only_searchSubscribedChannels.
Qed.

(** ** Failures of the listings *)

(** X8. Whatever makes the search fail, it fails with an [ApiError] of
    status 500 that carries a message: the handler's [catch] rewraps every
    exception. *)
Theorem searchSubscribedChannels_fails_with_500 `{Mongoose} (req : Request)
    (w : World) (e : Exn) :
  outcome (run (searchSubscribedChannels req) w) = Rejected e ->
  exists msg, e = ApiError 500 msg /\ msg <> "".
Proof.
  rewrite run_searchSubscribedChannels. cbn zeta.
  assert (Hf : forall x, exists msg, search_failure x = ApiError 500 msg /\ msg <> "").
  { intros x. unfold search_failure. eexists. split; [reflexivity|].
    unfold truthy, truthy_string.
    destruct (String.eqb_spec (error_message x) ""); cbn; [discriminate|assumption]. }
  destruct (target_of req) as [t|].
  - destruct (regex_valid _).
    + destruct (settled_bind _ _) as [page|x]; cbn [outcome].
      * discriminate.
      * intros [= <-]. apply Hf.
    + cbn [outcome]. intros [= <-]. apply Hf.
  - cbn [outcome]. intros [= <-]. apply Hf.
Qed.

Lemma searchSubscribedChannels_fails_with_500_witness :
  exists msg, ApiError 500 "the limit must be positive" = ApiError 500 msg /\ msg <> "".
Proof.
  apply (searchSubscribedChannels_fails_with_500
           (with_paging None (Some 0%Z) (Scenario.request Scenario.alice_id None None))
           Scenario.w1).
  vm_compute. reflexivity.
Defined.

(** X9. None of the three listings checks [userId]: with a [userId] that is
    not a well-formed id, each fails before any store operation, the
    subscriber listing and the subscribed-channels listing with the
    library's own error (no [ApiError], hence no 400), the search with its
    500. *)
Theorem listings_with_malformed_userId `{Mongoose} (req : Request) (w : World)
    (s : string) :
  query_userId req = Some s -> s <> "" -> parseObjectId s = None ->
  (exists msg, run (getChannelSubscribersList req) w =
     {| outcome := Rejected (BSONError msg); final := w; trace := [] |})
  /\ (exists msg, run (getUserSubscribedChannels req) w =
        {| outcome := Rejected (CastError msg); final := w; trace := [] |})
  /\ (exists msg, run (searchSubscribedChannels req) w =
        {| outcome := Rejected (ApiError 500 msg); final := w; trace := [] |}).
Proof.
  intros Hu Hs Hp. apply truthy_param_nonempty in Hs.
  assert (Ht : target_of req = None).
  { unfold target_of, or_requester. now rewrite Hu, Hs. }
  rewrite run_getChannelSubscribersList, run_getUserSubscribedChannels,
    run_searchSubscribedChannels, Hu, Hp, Ht. cbn zeta.
  repeat split; eexists; reflexivity.
Qed.

Lemma listings_with_malformed_userId_witness :
  let req := Scenario.request Scenario.alice_id None (Some "bob") in
  (exists msg, run (getChannelSubscribersList req) Scenario.w1 =
     {| outcome := Rejected (BSONError msg); final := Scenario.w1; trace := [] |})
  /\ (exists msg, run (getUserSubscribedChannels req) Scenario.w1 =
        {| outcome := Rejected (CastError msg); final := Scenario.w1; trace := [] |})
  /\ (exists msg, run (searchSubscribedChannels req) Scenario.w1 =
        {| outcome := Rejected (ApiError 500 msg); final := Scenario.w1; trace := [] |}).
Proof.
  intros req.
  assert (Hs : "bob" <> "") by discriminate.
  assert (Hp : parseObjectId "bob" = None) by reflexivity.
  exact (listings_with_malformed_userId req Scenario.w1 "bob" eq_refl Hs Hp).
Defined.

(** X10. In the subscribed-channels listing and in the search, naming one's
    own id as [userId] is the same as leaving [userId] out: the two runs are
    equal. *)
Theorem own_userId_same_as_omitted `{Mongoose} (req : Request) (w : World)
    (s : string) :
  s <> "" -> parseObjectId s = Some (user__id req) ->
  run (getUserSubscribedChannels (with_userId (Some s) req)) w =
  run (getUserSubscribedChannels (with_userId None req)) w
  /\ run (searchSubscribedChannels (with_userId (Some s) req)) w =
     run (searchSubscribedChannels (with_userId None req)) w.
Proof.
  intros Hs Hp. apply truthy_param_nonempty in Hs.
  assert (T1 : target_of (with_userId (Some s) req) = Some (user__id req)).
  { unfold target_of, or_requester. cbn [with_userId query_userId user__id].
    now rewrite Hs. }
  assert (T2 : target_of (with_userId None req) = Some (user__id req)) by reflexivity.
  rewrite !run_getUserSubscribedChannels, !run_searchSubscribedChannels, T1, T2.
  split; reflexivity.
Qed.

Lemma own_userId_same_as_omitted_witness :
  run (getUserSubscribedChannels
         (with_userId (Some Scenario.alice_hex)
            (Scenario.request Scenario.alice_id None None))) Scenario.w1 =
  run (getUserSubscribedChannels
         (with_userId None (Scenario.request Scenario.alice_id None None))) Scenario.w1.
Proof.
  assert (Hs : Scenario.alice_hex <> "") by discriminate.
  assert (Hp : parseObjectId Scenario.alice_hex
               = Some (user__id (Scenario.request Scenario.alice_id None None)))
    by reflexivity.
  exact (proj1 (own_userId_same_as_omitted
                  (Scenario.request Scenario.alice_id None None) Scenario.w1
                  Scenario.alice_hex Hs Hp)).
Defined.

(** ** Pages of the listings *)

(** The stages of the search before [$skip] are the stages of the listing,
    filtered by the pattern. *)
Lemma searchChannels_docs_filter `{Mongoose} (t : ObjectId) (search : string) (w : World) :
  searchChannels_docs t search w (subscriptions w) =
  List.filter (summary_matches search) (subscribed_summaries t w).
Proof.
  unfold searchChannels_docs, searchFound_docs, subscribed_summaries, agg_match at 2.
  induction (List.filter _ (subscriptions w)) as [|e l IH]; [reflexivity|].
  cbn [flat_map]. rewrite List.filter_app, <- IH. clear IH.
  change (e :: l) with ([e] ++ l).
  rewrite agg_lookup_app, agg_unwind_app. unfold agg_match.
  rewrite List.filter_app, agg_lookup_app. unfold agg_project at 1.
  rewrite map_app. f_equal.
  unfold agg_lookup at 2. cbn [map]. unfold agg_unwind. cbn [flat_map fst snd].
  rewrite app_nil_r. unfold agg_lookup, agg_project. rewrite map_map.
  induction (List.filter _ (users w)) as [|u us IHu]; [reflexivity|].
  cbn [map List.filter]. unfold search_matches at 1, summary_matches at 1.
  cbn [snd ChannelSummary.fullName ChannelSummary.username].
  destruct (regex_i search (User.fullName u) || regex_i search (User.username u));
    cbn [map]; rewrite IHu; reflexivity.
Qed.

Lemma paging_error_none (page limit : Z) :
  (1 <= page)%Z -> (0 < limit)%Z -> paging_error ((page - 1) * limit) limit = None.
Proof.
  intros Hp Hl. unfold paging_error.
  destruct (Z.ltb_spec ((page - 1) * limit) 0); [nia|].
  destruct (Z.leb_spec limit 0); [lia|reflexivity].
Qed.

Lemma paging_error_some (page limit : Z) :
  (page < 1)%Z \/ (limit <= 0)%Z -> paging_error ((page - 1) * limit) limit <> None.
Proof.
  intros Hpl. unfold paging_error.
  destruct (Z.ltb_spec ((page - 1) * limit) 0); [discriminate|].
  destruct (Z.leb_spec limit 0); [discriminate|]. nia.
Qed.

(** The channels of a page of the listing, without their flags. *)
Lemma listing_page_fields `{Mongoose} (req : Request) (w : World) (t : ObjectId) :
  let page := default 1%Z (query_page req) in
  let limit := default 10%Z (query_limit req) in
  target_of req = Some t -> (1 <= page)%Z -> (0 < limit)%Z ->
  exists d,
    outcome (run (getUserSubscribedChannels req) w) =
      sent 200 d "Fetched subscribed channels successfully"
    /\ map channel_fields (subscribedChannels d) =
       firstn (Z.to_nat limit)
         (skipn (Z.to_nat ((page - 1) * limit)) (subscribed_summaries t w)).
Proof.
  intros page limit Ht Hp Hl.
  rewrite run_getUserSubscribedChannels, Ht. cbn zeta. fold page limit.
  unfold subscribedChannels_pipeline. rewrite paged_result.
  rewrite (paging_error_none page limit Hp Hl). cbn [outcome].
  eexists. split; [reflexivity|]. cbn [subscribedChannels].
  now rewrite marked_fields, subscribedChannels_docs_join.
Qed.

Lemma firstn_two {D} (n : nat) (l : list D) :
  firstn n l ++ firstn n (skipn n l) = firstn (n + n) l.
Proof.
  rewrite <- (List.firstn_skipn n l) at 3.
  rewrite List.firstn_app, List.firstn_firstn, List.length_firstn.
  f_equal.
  - f_equal. lia.
  - destruct (Nat.le_gt_cases n (length l)) as [Hle|Hgt].
    + f_equal. lia.
    + rewrite (List.skipn_all2 l) by lia. now rewrite !List.firstn_nil.
Qed.

(** X11. Consecutive pages of the subscribed-channels listing tile the
    sequence of summaries: the channels of page [p] followed by those of
    page [p + 1], asked for with the same [limit] on the same store, are
    the [2 * limit] summaries that follow the first [(p - 1) * limit];
    nothing is repeated and nothing is left out between them. *)
Theorem consecutive_pages_tile `{Mongoose} (req : Request) (w : World) (t : ObjectId)
    (p limit : Z) :
  target_of req = Some t -> (1 <= p)%Z -> (0 < limit)%Z ->
  map channel_fields
    (page_of (outcome (run (getUserSubscribedChannels
                              (with_paging (Some p) (Some limit) req)) w)))
  ++ map channel_fields
       (page_of (outcome (run (getUserSubscribedChannels
                                 (with_paging (Some (p + 1)%Z) (Some limit) req)) w)))
  = firstn (Z.to_nat (2 * limit))
      (skipn (Z.to_nat ((p - 1) * limit)) (subscribed_summaries t w)).
Proof.
  intros Ht Hp Hl.
  destruct (listing_page_fields (with_paging (Some p) (Some limit) req) w t)
    as (d1 & E1 & F1); [exact Ht|exact Hp|exact Hl|].
  destruct (listing_page_fields (with_paging (Some (p + 1)%Z) (Some limit) req) w t)
    as (d2 & E2 & F2); [exact Ht|cbn; lia|exact Hl|].
  rewrite E1, E2. unfold page_of, sent.
  cbn [data json res_status_json new_ApiResponse]. rewrite F1, F2.
  cbn [with_paging query_page query_limit default]. unfold id.
  replace (Z.to_nat ((p + 1 - 1) * limit))
    with (Z.to_nat limit + Z.to_nat ((p - 1) * limit)) by nia.
  rewrite <- List.skipn_skipn, firstn_two. f_equal. lia.
Qed.

Lemma consecutive_pages_tile_witness :
  map channel_fields
    (page_of (outcome (run (getUserSubscribedChannels
                              (with_paging (Some 1%Z) (Some 1%Z)
                                 (Scenario.request Scenario.alice_id None None)))
                         Scenario.w2)))
  ++ map channel_fields
       (page_of (outcome (run (getUserSubscribedChannels
                                 (with_paging (Some (1 + 1)%Z) (Some 1%Z)
                                    (Scenario.request Scenario.alice_id None None)))
                            Scenario.w2)))
  = firstn (Z.to_nat (2 * 1))
      (skipn (Z.to_nat ((1 - 1) * 1)) (subscribed_summaries Scenario.alice_id Scenario.w2)).
Proof.
  apply (consecutive_pages_tile (Scenario.request Scenario.alice_id None None)
           Scenario.w2 Scenario.alice_id 1%Z 1%Z); [reflexivity|lia|lia].
Defined.

(** X12. A page of the subscribed-channels listing never holds more than
    [limit] channels, and it is empty, with status 200, when
    [(page - 1) * limit] reaches the number of the target's summaries. *)
Theorem page_size_and_past_the_end `{Mongoose} (req : Request) (w : World) (t : ObjectId) :
  let page := default 1%Z (query_page req) in
  let limit := default 10%Z (query_limit req) in
  target_of req = Some t -> (1 <= page)%Z -> (0 < limit)%Z ->
  exists d,
    outcome (run (getUserSubscribedChannels req) w) =
      sent 200 d "Fetched subscribed channels successfully"
    /\ (Z.of_nat (length (subscribedChannels d)) <= limit)%Z
    /\ ((Z.of_nat (length (subscribed_summaries t w)) <= (page - 1) * limit)%Z ->
        subscribedChannels d = []).
Proof.
  intros page limit Ht Hp Hl.
  destruct (listing_page_fields req w t Ht Hp Hl) as (d & Ho & Hf).
  fold page limit in Hf.
  exists d. split; [exact Ho|].
  apply (f_equal (@length _)) in Hf. rewrite List.length_map in Hf.
  split.
  - rewrite Hf, List.length_firstn. lia.
  - intros Hpast. rewrite List.length_firstn, List.length_skipn in Hf.
    destruct (subscribedChannels d); [reflexivity|]. cbn in Hf. lia.
Qed.

Lemma page_size_and_past_the_end_witness :
  exists d,
    outcome (run (getUserSubscribedChannels
                    (with_paging (Some 3%Z) (Some 5%Z)
                       (Scenario.request Scenario.alice_id None None))) Scenario.w2) =
      sent 200 d "Fetched subscribed channels successfully"
    /\ subscribedChannels d = [].
Proof.
  destruct (page_size_and_past_the_end
              (with_paging (Some 3%Z) (Some 5%Z)
                 (Scenario.request Scenario.alice_id None None))
              Scenario.w2 Scenario.alice_id)
    as (d & Ho & _ & Hempty); [reflexivity|cbn; lia|cbn; lia|].
  exists d. split; [exact Ho|]. apply Hempty. vm_compute. discriminate.
Defined.

(** X13. The subscribed-channels listing and the search answer only when
    the target can be cast to an id, [page] is at least 1 and [limit] is
    positive (the defaults 1 and 10 stand in for omitted parameters); the
    search, besides, only when the store accepts its pattern. *)
Theorem listings_answer_only_if `{Mongoose} (req : Request) (w : World) :
  let search := default "" (query_search req) in
  let page := default 1%Z (query_page req) in
  let limit := default 10%Z (query_limit req) in
  ((exists resp, outcome (run (getUserSubscribedChannels req) w) = Fulfilled resp)
   -> (exists t, target_of req = Some t) /\ (1 <= page)%Z /\ (0 < limit)%Z)
  /\
  ((exists resp, outcome (run (searchSubscribedChannels req) w) = Fulfilled resp)
   -> (exists t, target_of req = Some t) /\ regex_valid search = true
      /\ (1 <= page)%Z /\ (0 < limit)%Z).
Proof.
  intros search page limit.
  rewrite run_getUserSubscribedChannels, run_searchSubscribedChannels.
  cbn zeta. fold search page limit.
  unfold subscribedChannels_pipeline.
  destruct (target_of req) as [t|].
  2:{ split; intros [resp E]; discriminate. }
  rewrite !paged_result.
  assert (Hok : paging_error ((page - 1) * limit) limit = None ->
                (1 <= page)%Z /\ (0 < limit)%Z).
  { intros E. destruct (Z_lt_dec page 1) as [Hp|Hp].
    { exfalso. now apply (paging_error_some page limit (or_introl Hp)). }
    destruct (Z_le_dec limit 0) as [Hl|Hl].
    { exfalso. now apply (paging_error_some page limit (or_intror Hl)). }
    lia. }
  destruct (paging_error ((page - 1) * limit) limit) as [e|] eqn:E.
  - split; [intros [resp R]; discriminate|].
    destruct (regex_valid search); intros [resp R]; discriminate.
  - split; [intros _; split; [eauto|now apply Hok]|].
    destruct (regex_valid search); [|intros [resp R]; discriminate].
    intros _. split; [eauto|]. split; [reflexivity|now apply Hok].
Qed.

Lemma length_searchChannels_docs `{Mongoose} (t : ObjectId) (search : string)
    (w : World) (docs : list Subscription.t) :
  length (searchChannels_docs t search w docs) =
  length (searchFound_docs t search w docs).
Proof.
  unfold searchChannels_docs, agg_project, agg_lookup.
  now rewrite !List.length_map.
Qed.

(** X14. For a valid target, a pattern the store accepts, [page >= 1] and
    [limit > 0], the search answers 200; its channels are those summaries of
    the target whose [fullName] or [username] matches the pattern, after
    skipping [(page-1)*limit] of them and taking at most [limit];
    [totalSubscribedChannels] is the number of all matching summaries, and
    [totalPages] its ceiling over [limit]. For a pattern the store refuses,
    the search fails with 500 at its first aggregation. *)
Theorem searchSubscribedChannels_page `{Mongoose} (req : Request) (w : World)
    (t : ObjectId) :
  let search := default "" (query_search req) in
  let page := default 1%Z (query_page req) in
  let limit := default 10%Z (query_limit req) in
  let found := List.filter (summary_matches search) (subscribed_summaries t w) in
  target_of req = Some t ->
  (regex_valid search = true -> (1 <= page)%Z -> (0 < limit)%Z ->
   exists d,
     outcome (run (searchSubscribedChannels req) w) =
       sent 200 d "Searched subscribed channels successfully"
     /\ map channel_fields (subscribedChannels d) =
        firstn (Z.to_nat limit) (skipn (Z.to_nat ((page - 1) * limit)) found)
     /\ currentPage d = page
     /\ totalSubscribedChannels d = length found
     /\ ((totalPages d - 1) * limit < Z.of_nat (length found)
         <= totalPages d * limit)%Z)
  /\
  (regex_valid search = false ->
   exists msg refused,
     outcome (run (searchSubscribedChannels req) w) = Rejected (ApiError 500 msg)
     /\ final (run (searchSubscribedChannels req) w) = w
     /\ trace (run (searchSubscribedChannels req) w) =
        [access (Subscription_aggregate (searchCount_pipeline t search))
           (Rejected refused)]).
Proof.
  intros search page limit found Ht.
  rewrite run_searchSubscribedChannels, Ht. cbn zeta. fold search page limit.
  split.
  - intros Hv Hp Hl. rewrite Hv, paged_result.
    rewrite (paging_error_none page limit Hp Hl). cbn [outcome].
    eexists. split; [reflexivity|].
    cbn [subscribedChannels currentPage totalPages totalSubscribedChannels].
    rewrite marked_fields, first_count_of_count, <- length_searchChannels_docs,
      searchChannels_docs_filter.
    fold found. repeat split; try reflexivity; now apply Math_ceil_div_spec.
  - intros Hv. rewrite Hv. cbn [outcome final trace].
    eexists _, _. repeat split.
Qed.

Lemma searchSubscribedChannels_page_witness :
  (exists d,
     outcome (run (searchSubscribedChannels
                     (with_search (Some "CAR")
                        (Scenario.request Scenario.alice_id None None))) Scenario.w2) =
       sent 200 d "Searched subscribed channels successfully"
     /\ map channel_fields (subscribedChannels d) =
        [ChannelSummary.mk Scenario.carol_id "carol" "Carol C" "c.png" 1]
     /\ totalSubscribedChannels d = 1)
  /\ exists msg,
       outcome (run (searchSubscribedChannels
                       (with_search (Some "(")
                          (Scenario.request Scenario.alice_id None None))) Scenario.w2) =
       Rejected (ApiError 500 msg).
Proof.
  split.
  - destruct (proj1 (searchSubscribedChannels_page
                       (with_search (Some "CAR")
                          (Scenario.request Scenario.alice_id None None))
                       Scenario.w2 Scenario.alice_id eq_refl))
      as (d & Ho & Hc & _ & Hn & _); [reflexivity|cbn; lia|cbn; lia|].
    exists d. split; [exact Ho|]. split; [exact Hc|exact Hn].
  - destruct (proj2 (searchSubscribedChannels_page
                       (with_search (Some "(")
                          (Scenario.request Scenario.alice_id None None))
                       Scenario.w2 Scenario.alice_id eq_refl))
      as (msg & refused & Ho & _); [reflexivity|].
    exists msg. exact Ho.
Defined.

Lemma length_filter_le {D} (p : D -> bool) (l : list D) :
  length (List.filter p l) <= length l.
Proof.
  induction l as [|d l IH]; simpl; [lia|]. destruct (p d); simpl; lia.
Qed.

Lemma filter_id_at_most_one (x : ObjectId) (l : list User.t) :
  List.NoDup (map User._id l) ->
  length (List.filter (fun u => (User._id u =? x)%N) l) <= 1.
Proof.
  induction l as [|u l IH]; simpl; [lia|]. intros ND.
  apply NoDup_cons_iff in ND as [Hu ND]. specialize (IH ND).
  destruct (N.eqb_spec (User._id u) x) as [E|E]; [|exact IH].
  simpl. replace (List.filter _ l) with (@nil User.t); [simpl; lia|].
  symmetry. apply filter_none. apply List.Forall_forall. intros v Hv.
  apply N.eqb_neq. intros Ev. apply Hu. rewrite E, <- Ev. now apply in_map.
Qed.

Lemma length_subscribed_summaries (t : ObjectId) (w : World) :
  List.NoDup (map User._id (users w)) ->
  length (subscribed_summaries t w) <= count_where_subscriber t (subscriptions w).
Proof.
  intros ND. unfold subscribed_summaries, count_where_subscriber.
  induction (List.filter _ (subscriptions w)) as [|e l IH]; [simpl; lia|].
  cbn [flat_map length]. rewrite List.length_app, List.length_map.
  pose proof (filter_id_at_most_one (Subscription.channel e) (users w) ND). lia.
Qed.

(** X15. When the user documents have ids of their own, the search never
    counts more channels than the subscribed-channels listing of the same
    request, whatever the pattern. *)
Theorem search_count_at_most_listing `{Mongoose} (req : Request) (w : World)
    (n m : nat) :
  List.NoDup (map User._id (users w)) ->
  total_of (outcome (run (searchSubscribedChannels req) w)) = Some n ->
  total_of (outcome (run (getUserSubscribedChannels req) w)) = Some m ->
  n <= m.
Proof.
  intros ND.
  rewrite run_searchSubscribedChannels, run_getUserSubscribedChannels. cbn zeta.
  destruct (target_of req) as [t|]; [|discriminate].
  unfold subscribedChannels_pipeline.
  destruct (regex_valid _); [|discriminate].
  rewrite !paged_result.
  destruct (paging_error _ _); [discriminate|]. cbn.
  intros [= <-] [= <-].
  rewrite first_count_of_count, <- length_searchChannels_docs,
    searchChannels_docs_filter.
  pose proof (length_filter_le (summary_matches (default "" (query_search req)))
                (subscribed_summaries t w)).
  pose proof (length_subscribed_summaries t w ND). lia.
Qed.

Lemma search_count_at_most_listing_witness : 1 <= 2.
Proof.
  apply (search_count_at_most_listing
           (with_search (Some "car") (Scenario.request Scenario.alice_id None None))
           Scenario.w2 1 2).
  - cbn. repeat constructor; cbn; intuition discriminate.
  - vm_compute. reflexivity.
  - vm_compute. reflexivity.
Defined.

(** ** Members of the listings *)

Lemma In_subscriber_summaries (t : ObjectId) (w : World) (x : SubscriberSummary.t) :
  In x (subscriber_summaries t w) <->
  exists e u, In e (subscriptions w) /\ Subscription.channel e = t
              /\ In u (users w) /\ User._id u = Subscription.subscriber e
              /\ x = summary_of_user u.
Proof.
  unfold subscriber_summaries. rewrite in_flat_map. split.
  - intros (e & He & Hx). apply filter_In in He as [He Ht].
    apply in_map_iff in Hx as (u & <- & Hu). apply filter_In in Hu as [Hu Hs].
    apply N.eqb_eq in Ht, Hs. exists e, u. auto.
  - intros (e & u & He & Ht & Hu & Hs & ->). exists e. split.
    + apply filter_In. split; [exact He|now apply N.eqb_eq].
    + apply in_map_iff. exists u. split; [reflexivity|].
      apply filter_In. split; [exact Hu|now apply N.eqb_eq].
Qed.

(** X16. When the subscriber listing answers for a named channel, the
    summaries it returns are exactly those of the users who have an edge to
    that channel: each returned summary is the projection of a user document
    that is the subscriber of such an edge, and each such user document is
    returned. *)
Theorem subscribers_listed_iff `{Mongoose} (req : Request) (w : World)
    (s : string) (t : ObjectId) (resp : HttpResponse (list SubscriberSummary.t)) :
  query_userId req = Some s -> parseObjectId s = Some t ->
  outcome (run (getChannelSubscribersList req) w) = Fulfilled resp ->
  status resp = 200%Z
  /\ forall x, In x (data (json resp)) <->
       exists e u, In e (subscriptions w) /\ Subscription.channel e = t
                   /\ In u (users w) /\ User._id u = Subscription.subscriber e
                   /\ x = summary_of_user u.
Proof.
  intros Hu Ht. rewrite run_getChannelSubscribersList, Hu, Ht. cbn zeta.
  cbn [outcome]. rewrite channelSubscribers_docs_join.
  destruct (List.filter _ (users w)) as [|u0 us] eqn:F; cbn [flat_map].
  { discriminate. }
  destruct (subscriber_summaries t w ++ _) as [|x0 l] eqn:E; [discriminate|].
  intros [= <-]. cbn [status data json res_status_json new_ApiResponse].
  split; [reflexivity|]. intros x.
  rewrite <- In_subscriber_summaries, <- E, in_app_iff, in_flat_map.
  split; [|now left].
  intros [Hx|(_ & _ & Hx)]; exact Hx.
Qed.

Lemma subscribers_listed_iff_witness :
  List.Forall
    (fun x =>
       exists e u, In e (subscriptions Scenario.w2)
                   /\ Subscription.channel e = Scenario.bob_id
                   /\ In u (users Scenario.w2)
                   /\ User._id u = Subscription.subscriber e
                   /\ x = summary_of_user u)
    [summary_of_user Scenario.alice].
Proof.
  assert (Ht : parseObjectId Scenario.bob_hex = Some Scenario.bob_id) by reflexivity.
  assert (E : outcome (run (getChannelSubscribersList
                              (Scenario.request Scenario.alice_id None
                                 (Some Scenario.bob_hex))) Scenario.w2) =
              sent 200 [summary_of_user Scenario.alice]
                "Subscribers fetched successfully.")
    by (vm_compute; reflexivity).
  apply List.Forall_forall. intros x Hx.
  exact (proj1 (proj2 (subscribers_listed_iff
                         (Scenario.request Scenario.alice_id None (Some Scenario.bob_hex))
                         Scenario.w2 Scenario.bob_hex Scenario.bob_id _ eq_refl Ht E) x)
           Hx).
Defined.

Lemma subscribed_summary_total (t : ObjectId) (w : World) (c : ChannelSummary.t) :
  In c (subscribed_summaries t w) ->
  ChannelSummary.totalSubscribers c = subscriber_count (ChannelSummary._id c) w
  /\ 1 <= ChannelSummary.totalSubscribers c.
Proof.
  unfold subscribed_summaries. rewrite in_flat_map.
  intros (e & He & Hc). apply filter_In in He as [He _].
  apply in_map_iff in Hc as (u & <- & Hu). apply filter_In in Hu as [_ Hu].
  apply N.eqb_eq in Hu. cbn. rewrite Hu. split; [reflexivity|].
  unfold subscriber_count.
  assert (Hin : In e (List.filter
                        (fun s => (Subscription.channel s =? Subscription.channel e)%N)
                        (subscriptions w))).
  { apply filter_In. split; [exact He|apply N.eqb_refl]. }
  destruct (List.filter _ (subscriptions w)); [destruct Hin|cbn; lia].
Qed.

(** X17. In an answer of the subscribed-channels listing and in an answer of
    the search, [totalSubscribers] of every channel of the page is the
    number of edges to that channel in the store, and it is at least 1. *)
Theorem listed_channel_totalSubscribers `{Mongoose} (req : Request) (w : World)
    (resp : HttpResponse ListingData) :
  outcome (run (getUserSubscribedChannels req) w) = Fulfilled resp
  \/ outcome (run (searchSubscribedChannels req) w) = Fulfilled resp ->
  forall item, In item (subscribedChannels (data (json resp))) ->
    ChannelSummary.totalSubscribers (channel_fields item) =
      subscriber_count (ChannelSummary._id (channel_fields item)) w
    /\ 1 <= ChannelSummary.totalSubscribers (channel_fields item).
Proof.
  rewrite run_getUserSubscribedChannels, run_searchSubscribedChannels. cbn zeta.
  destruct (target_of req) as [t|]; [|intros [E|E]; discriminate].
  unfold subscribedChannels_pipeline.
  rewrite !paged_result.
  destruct (paging_error _ _);
    [destruct (regex_valid _); intros [E|E]; discriminate|].
  destruct (regex_valid _); cbn [outcome];
    [|intros [E|E]; discriminate E || (injection E as <-; cbn; intros item Hin;
        apply marked_flag in Hin as [Hpage _];
        apply In_firstn, In_skipn in Hpage;
        rewrite subscribedChannels_docs_join in Hpage;
        now apply (subscribed_summary_total t w))].
  intros [E|E]; injection E as <-; cbn; intros item Hin;
    apply marked_flag in Hin as [Hpage _];
    apply In_firstn, In_skipn in Hpage.
  - rewrite subscribedChannels_docs_join in Hpage.
    now apply (subscribed_summary_total t w).
  - rewrite searchChannels_docs_filter in Hpage. apply filter_In in Hpage as [Hpage _].
    now apply (subscribed_summary_total t w).
Qed.

(** ** Instances on the sample stores *)

Lemma w2_store_ok : store_ok Scenario.w2.
Proof.
  split; cbn.
  - repeat constructor; cbn; intuition discriminate.
  - intuition discriminate.
Qed.

(** Distinct pairs make the edges unique. *)
Lemma unique_edges_of_NoDup (w : World) :
  List.NoDup (map (fun e => (Subscription.channel e, Subscription.subscriber e))
                (subscriptions w)) ->
  unique_edges w.
Proof.
  intros ND c s. unfold count_pair.
  induction (subscriptions w) as [|e l IH]; simpl; [lia|].
  simpl in ND. apply NoDup_cons_iff in ND as [He ND]. specialize (IH ND).
  destruct (edge_of c s e) eqn:E; [|exact IH].
  simpl. rewrite filter_none; [simpl; lia|].
  apply List.Forall_forall. intros x Hx.
  destruct (edge_of c s x) eqn:Ex; [|reflexivity].
  exfalso. apply He.
  apply edge_of_true in E as [E1 E2]. apply edge_of_true in Ex as [Ex1 Ex2].
  rewrite E1, E2, <- Ex1, <- Ex2.
  now apply (in_map (fun e => (Subscription.channel e, Subscription.subscriber e))).
Qed.

Lemma w2_unique_edges : unique_edges Scenario.w2.
Proof.
  apply unique_edges_of_NoDup. cbn.
  repeat constructor; cbn; intuition discriminate.
Qed.

Lemma toggle_keeps_other_edges_witness :
  other_edges Scenario.bob_id Scenario.alice_id
    (final (run (toggleSubscriptionStatus
                   (Scenario.request Scenario.alice_id (Some Scenario.bob_hex) None))
              Scenario.w2)) =
  other_edges Scenario.bob_id Scenario.alice_id Scenario.w2.
Proof.
  assert (Hs : Scenario.bob_hex <> "") by discriminate.
  assert (Hc : parseObjectId Scenario.bob_hex = Some Scenario.bob_id) by reflexivity.
  assert (ND : List.NoDup (map Subscription._id (subscriptions Scenario.w2))).
  { cbn. repeat constructor; cbn; intuition discriminate. }
  exact (toggle_keeps_other_edges
           (Scenario.request Scenario.alice_id (Some Scenario.bob_hex) None)
           Scenario.w2 Scenario.bob_hex Scenario.bob_id eq_refl Hs Hc ND).
Defined.

Lemma toggle_counts_witness :
  count_pair Scenario.bob_id Scenario.alice_id
    (final (run (toggleSubscriptionStatus
                   (Scenario.request Scenario.alice_id (Some Scenario.bob_hex) None))
              Scenario.w2)) = 0.
Proof.
  assert (Hs : Scenario.bob_hex <> "") by discriminate.
  assert (Hc : parseObjectId Scenario.bob_hex = Some Scenario.bob_id) by reflexivity.
  exact (toggle_counts
           (Scenario.request Scenario.alice_id (Some Scenario.bob_hex) None)
           Scenario.w2 Scenario.bob_hex Scenario.bob_id eq_refl Hs Hc w2_store_ok).
Defined.

Lemma toggle_keeps_unique_edges_witness :
  count_pair Scenario.carol_id Scenario.alice_id
    (final (run (toggleSubscriptionStatus
                   (Scenario.request Scenario.alice_id (Some Scenario.bob_hex) None))
              Scenario.w2)) <= 1.
Proof.
  assert (Hs : Scenario.bob_hex <> "") by discriminate.
  assert (Hc : parseObjectId Scenario.bob_hex = Some Scenario.bob_id) by reflexivity.
  exact (toggle_keeps_unique_edges
           (Scenario.request Scenario.alice_id (Some Scenario.bob_hex) None)
           Scenario.w2 Scenario.bob_hex Scenario.bob_id eq_refl Hs Hc
           (proj1 w2_store_ok) w2_unique_edges Scenario.carol_id Scenario.alice_id).
Defined.

Lemma toggle_flips_status_witness :
  isSubscribed_of
    (outcome (run (checkSubscriptionStatus
                     (Scenario.request Scenario.alice_id (Some Scenario.bob_hex) None))
                (final (run (toggleSubscriptionStatus
                               (Scenario.request Scenario.alice_id
                                  (Some Scenario.bob_hex) None))
                          Scenario.w2)))) = Some false.
Proof.
  assert (Hs : Scenario.bob_hex <> "") by discriminate.
  assert (Hc : parseObjectId Scenario.bob_hex = Some Scenario.bob_id) by reflexivity.
  exact (toggle_flips_status
           (Scenario.request Scenario.alice_id (Some Scenario.bob_hex) None)
           Scenario.w2 Scenario.bob_hex Scenario.bob_id eq_refl Hs Hc w2_store_ok
           (w2_unique_edges Scenario.bob_id Scenario.alice_id)).
Defined.

Lemma concurrent_toggles_duplicate_edge_witness :
  count_pair Scenario.bob_id Scenario.alice_id
    (final (snd (run_pair [true; false]
                   (toggleSubscriptionStatus
                      (Scenario.request Scenario.alice_id (Some Scenario.bob_hex) None))
                   (toggleSubscriptionStatus
                      (Scenario.request Scenario.alice_id (Some Scenario.bob_hex) None))
                   Scenario.w0))) = 2.
Proof.
  assert (Hs : Scenario.bob_hex <> "") by discriminate.
  assert (Hc : parseObjectId Scenario.bob_hex = Some Scenario.bob_id) by reflexivity.
  assert (Absent : ~ has_edge Scenario.alice_id Scenario.bob_id Scenario.w0).
  { intros (e & [] & _). }
  assert (Hg : Scenario.gen 1 <> Scenario.gen 0) by discriminate.
  apply (concurrent_toggles_duplicate_edge
           (Scenario.request Scenario.alice_id (Some Scenario.bob_hex) None)
           Scenario.w0 Scenario.bob_hex Scenario.bob_id eq_refl Hs Hc Absent
           (fun x : False => x) (fun x : False => x) Hg).
Defined.

Lemma listed_channel_totalSubscribers_witness :
  List.Forall (fun item => 1 <= ChannelSummary.totalSubscribers (channel_fields item))
    (page_of (outcome (run (getUserSubscribedChannels
                              (Scenario.request Scenario.alice_id None None))
                         Scenario.w2))).
Proof.
  assert (E : exists resp,
             outcome (run (getUserSubscribedChannels
                             (Scenario.request Scenario.alice_id None None))
                        Scenario.w2) = Fulfilled resp)
    by (eexists; vm_compute; reflexivity).
  destruct E as [resp E]. rewrite E. cbn [page_of].
  apply List.Forall_forall. intros item Hin.
  exact (proj2 (listed_channel_totalSubscribers
                  (Scenario.request Scenario.alice_id None None) Scenario.w2 resp
                  (or_introl E) item Hin)).
Defined.

(** X18. The flag of a listed channel agrees with the status check: for a
    channel of a page of the subscribed-channels listing or of the search,
    [checkSubscriptionStatus] asked by the same requester on the same store
    for that channel's id answers [isSubscribed] equal to the channel's
    [isSubscribedByMe]. *)
Theorem listed_flag_agrees_with_status `{Mongoose} (req : Request) (w : World)
    (resp : HttpResponse ListingData) (item : ChannelItem) (s : string) :
  outcome (run (getUserSubscribedChannels req) w) = Fulfilled resp
  \/ outcome (run (searchSubscribedChannels req) w) = Fulfilled resp ->
  In item (subscribedChannels (data (json resp))) ->
  s <> "" -> parseObjectId s = Some (ChannelSummary._id (channel_fields item)) ->
  isSubscribed_of
    (outcome (run (checkSubscriptionStatus (with_channelId (Some s) req)) w)) =
  Some (isSubscribedByMe item).
Proof.
  intros Hresp Hin Hs Hp.
  assert (Hflag : isSubscribedByMe item = true <->
                  has_edge (user__id req) (ChannelSummary._id (channel_fields item)) w).
  { revert Hresp Hin.
    rewrite run_getUserSubscribedChannels, run_searchSubscribedChannels. cbn zeta.
    destruct (target_of req) as [t|]; [|intros [E|E]; discriminate].
    destruct (subscribedChannels_pipeline _ _ _ _ _) as [p1|e1];
      destruct (regex_valid _); try destruct (settled_bind _ _) as [p2|e2];
      cbn [outcome];
      intros [E|E]; try discriminate; injection E as <-; cbn;
      intros Hin; now apply marked_flag in Hin. }
  apply String.eqb_neq in Hs.
  rewrite run_checkSubscriptionStatus. cbn [with_channelId params_channelId user__id].
  rewrite Hs, Hp. cbn. f_equal.
  rewrite <- find_edge_has_edge in Hflag.
  destruct (List.find _ _) as [e|]; cbn; destruct (isSubscribedByMe item);
    try reflexivity.
  - symmetry. apply Hflag. eauto.
  - destruct (proj1 Hflag eq_refl) as [e E]. discriminate.
Qed.

Lemma listed_flag_agrees_with_status_witness :
  isSubscribed_of
    (outcome (run (checkSubscriptionStatus
                     (with_channelId (Some Scenario.bob_hex)
                        (Scenario.request Scenario.alice_id None None)))
                Scenario.w2)) = Some true.
Proof.
  pose (item := {| channel_fields :=
                     ChannelSummary.mk Scenario.bob_id "bob" "Bob B" "b.png" 1;
                   isSubscribedByMe := true |}).
  assert (E : exists resp,
             outcome (run (getUserSubscribedChannels
                             (Scenario.request Scenario.alice_id None None))
                        Scenario.w2) = Fulfilled resp
             /\ In item (subscribedChannels (data (json resp)))).
  { eexists. split; [vm_compute; reflexivity|]. left. reflexivity. }
  destruct E as (resp & E & Hin).
  assert (Hs : Scenario.bob_hex <> "") by discriminate.
  assert (Hp : parseObjectId Scenario.bob_hex
               = Some (ChannelSummary._id (channel_fields item))) by reflexivity.
  exact (listed_flag_agrees_with_status
           (Scenario.request Scenario.alice_id None None) Scenario.w2 resp item
           Scenario.bob_hex (or_introl E) Hin Hs Hp).
Defined.

Lemma listings_answer_only_if_witness :
  (exists t, target_of (with_paging (Some 2%Z) (Some 1%Z)
                          (Scenario.request Scenario.alice_id None None)) = Some t)
  /\ (1 <= 2)%Z /\ (0 < 1)%Z.
Proof.
  apply (proj1 (listings_answer_only_if
                  (with_paging (Some 2%Z) (Some 1%Z)
                     (Scenario.request Scenario.alice_id None None))
                  Scenario.w2)).
  eexists. vm_compute. reflexivity.
Defined.
